(** * CodeEditorView: the client of the autonomous conductor

    A shallow embedding of the state handling of
    [frontend/components/views/CodeEditorView.tsx]: the React state of the
    autonomous mode, the handlers that build the requests sent to the
    workspace API and fold the answers back into the state, the stream
    event reducer, and the persistence of the progress record in
    [localStorage].

    Conventions.
    - A [useState] cell is a field of the record [View.t]; a handler is a
      function on [View.t].  An [async] handler is cut at its [await
      fetch]: one function builds the request from the state the closure
      captured, a second one folds the outcome of the fetch into the state.
    - A functional update [setX(prev => ...)] is a function of [prev].
    - Callback closures stored in the modal are first-order values of the
      type [Modal.action], run by [CodeEditorView.click].
    - The built-ins that count the code units or code points of a string
      ([trim], [slice], the string iterator) and those of [Date] are
      parameters of the handlers that call them.
    - Numbers typed by the user are rationals, counters reported by the
      engine are integers. *)

From Stdlib Require Import ZArith QArith Qminmax.
From stdpp Require Import gmap strings list pretty.

Set Warnings "-register-all".

Local Open Scope string_scope.
Local Open Scope Z_scope.

(** ** The JavaScript primitives the component relies on *)

Module JS.

(** Truthiness of a string: only the empty string is falsy. *)
Definition truthy (s : string) : bool :=
  negb (String.eqb s EmptyString).

(** Truthiness of a number that may be [undefined]: [undefined] and [0]
    are falsy. *)
Definition truthy_num (n : option Z) : bool :=
  match n with
  | Some k => negb (k =? 0)
  | None => false
  end.

(** [a || b] where [a] is a string that may be [undefined] or [null]. *)
Definition or_string (a : option string) (b : string) : string :=
  match a with
  | Some s => if truthy s then s else b
  | None => b
  end.

(** [a || undefined]: a falsy string becomes [undefined]. *)
Definition or_undefined (a : option string) : option string :=
  match a with
  | Some s => if truthy s then Some s else None
  | None => None
  end.

(** [n || undefined] and [n || d] on numbers. *)
Definition num_or_undefined (n : option Z) : option Z :=
  if truthy_num n then n else None.

Definition num_or (n : option Z) (d : Z) : Z :=
  match n with
  | Some k => if k =? 0 then d else k
  | None => d
  end.

(** [a || b] and [a ?? b] where both sides may be [undefined]. *)
Definition num_or_else (n d : option Z) : option Z :=
  if truthy_num n then n else d.

Definition num_nullish (n d : option Z) : option Z :=
  match n with
  | Some _ => n
  | None => d
  end.

(** [`${x}`] for a number or a string that may be [undefined]. *)
Definition show_num (n : option Z) : string :=
  match n with
  | Some k => pretty k
  | None => "undefined"
  end.

Definition show_str (s : option string) : string :=
  match s with
  | Some t => t
  | None => "undefined"
  end.

(** [l.slice(-n)]: the last [n] elements. *)
Definition slice_last {A} (n : nat) (l : list A) : list A :=
  drop (length l - n) l.

(** A [Set] of strings keeps its members in insertion order; adding a
    member that is already there changes nothing.  [new Set(l)] adds the
    elements of [l] from left to right, and spreading the set lists
    them in that order. *)
Definition Set_add (s : list string) (x : string) : list string :=
  if bool_decide (x ∈ s) then s else s ++ [x].

Definition new_Set (l : list string) : list string :=
  foldl Set_add [] l.

(** [l.includes(x)]. *)
Definition includes (x : string) (l : list string) : bool :=
  bool_decide (x ∈ l).

(** [Math.min(hi, Math.max(lo, x))] on finite numbers. *)
Definition clamp (lo hi x : Q) : Q := Qmin hi (Qmax lo x).

(** A [Date] holds a time value in milliseconds, or is invalid. *)
Inductive Date :=
| InvalidDate
| TimeValue (ms : Z).

End JS.

(** ** JSON documents and the values the component holds *)

Module Json.

(** A JSON document. *)
Inductive json :=
| JNull
| JBool (b : bool)
| JNum (n : Z)
| JStr (s : string)
| JArr (items : list json)
| JObj (props : list (string * json)).

(** A value at run time: a document may also hold [undefined] and [Date]
    objects.  The properties of an object are listed in insertion
    order. *)
Inductive value :=
| Undefined
| Null
| Bool (b : bool)
| Num (n : Z)
| Str (s : string)
| DateV (d : JS.Date)
| Arr (items : list value)
| Obj (props : list (string * value)).

(** The value [JSON.parse] builds from a document. *)
Fixpoint of_json (j : json) : value :=
  match j with
  | JNull => Null
  | JBool b => Bool b
  | JNum n => Num n
  | JStr s => Str s
  | JArr items => Arr (map of_json items)
  | JObj props => Obj (map (fun kv => (fst kv, of_json (snd kv))) props)
  end.

(** Reading a property [o.k] of an object's property list, and writing
    it: an existing property keeps its place, a new one goes last. *)
Fixpoint get_prop (k : string) (props : list (string * value)) : value :=
  match props with
  | [] => Undefined
  | (k', v) :: rest => if String.eqb k k' then v else get_prop k rest
  end.

Fixpoint has_prop (k : string) (props : list (string * value)) : bool :=
  match props with
  | [] => false
  | (k', _) :: rest => if String.eqb k k' then true else has_prop k rest
  end.

Fixpoint replace_prop (k : string) (v : value)
    (props : list (string * value)) : list (string * value) :=
  match props with
  | [] => []
  | (k', v') :: rest =>
      if String.eqb k k' then (k', v) :: rest
      else (k', v') :: replace_prop k v rest
  end.

Definition set_prop (k : string) (v : value)
    (props : list (string * value)) : list (string * value) :=
  if has_prop k props then replace_prop k v props else props ++ [(k, v)].

(** Truthiness of a value. *)
Definition truthy (v : value) : bool :=
  match v with
  | Undefined | Null => false
  | Bool b => b
  | Num n => negb (n =? 0)
  | Str s => JS.truthy s
  | DateV _ | Arr _ | Obj _ => true
  end.

Section Runtime.

(** The two built-ins of [Date] the component goes through:
    [toISOString] on a valid time value and the constructor
    [new Date(v)]. *)
Variable toISOString : Z -> string.
Variable new_Date : value -> JS.Date.

(** [Date.prototype.toJSON]: the ISO string, or [null] for an invalid
    date. *)
Definition Date_toJSON (d : JS.Date) : json :=
  match d with
  | JS.TimeValue ms => JStr (toISOString ms)
  | JS.InvalidDate => JNull
  end.

(** The document [JSON.stringify] writes for a value; [None] is the
    [undefined] it returns for [undefined].  A property holding
    [undefined] is left out, an [undefined] array item becomes [null]. *)
Definition stringify_items (stringify : value -> option json)
    : list value -> list json :=
  fix go (l : list value) : list json :=
    match l with
    | [] => []
    | x :: l' =>
        match stringify x with
        | Some j => j
        | None => JNull
        end :: go l'
    end.

Definition stringify_props (stringify : value -> option json)
    : list (string * value) -> list (string * json) :=
  fix go (l : list (string * value)) : list (string * json) :=
    match l with
    | [] => []
    | (k, x) :: l' =>
        match stringify x with
        | Some j => (k, j) :: go l'
        | None => go l'
        end
    end.

Fixpoint stringify (v : value) : option json :=
  match v with
  | Undefined => None
  | Null => Some JNull
  | Bool b => Some (JBool b)
  | Num n => Some (JNum n)
  | Str s => Some (JStr s)
  | DateV d => Some (Date_toJSON d)
  | Arr items => Some (JArr (stringify_items stringify items))
  | Obj props => Some (JObj (stringify_props stringify props))
  end.

End Runtime.

End Json.

(** ** Records exchanged with the workspace API *)

(** The [status] of a background task. *)
Module TaskStatus.
Inductive t :=
| pending | running | completed | stopped | error | cancelled.

#[global] Instance eq_dec : EqDecision t.
Proof. solve_decision. Defined.
End TaskStatus.

Record PhaseSummary := {
phase_id : Z;
name : string;
description : string;
}.

(** [interface BackgroundTask]. *)
Module BackgroundTask.
Record t := {
  id : string;
  workspace : string;
  task : string;
  status : TaskStatus.t;
  created_at : string;
  started_at : option string;
  completed_at : option string;
  iteration : Z;
  progress : Z;
  analysis : string;
  files_created : list string;
  current_phase : option string;
  current_phase_name : option string;
  current_phase_id : option Z;
  total_phases : option Z;
  phases : option (list PhaseSummary);
  is_complete : bool;
  error : option string;
  conductor_model : option string;
  worker_models : option (list string);
  worker_count : option Z;
  max_parallel_workers : option Z;
  active_workers : option Z;
}.
End BackgroundTask.

(** [interface TaskLog]: a log line as the logs endpoint returns it. *)
Module TaskLog.
Record t := {
  type : string;
  message : string;
  timestamp : string;
}.
End TaskLog.

(** An entry of [autonomousProgress.logs]. *)
Module LogEntry.
Record t := {
  type : string;
  message : string;
  timestamp : JS.Date;
}.
End LogEntry.

(** The [autonomousProgress] state cell.  An optional property is [None]
  both when it is missing and when it holds [undefined]. *)
Module Progress.
Record t := {
  iteration : Z;
  progress : Z;
  analysis : string;
  filesCreated : list string;
  isComplete : bool;
  logs : list LogEntry.t;
  currentPhase : option string;
  currentPhaseName : option string;
  currentPhaseId : option Z;
  totalPhases : option Z;
  phases : option (list PhaseSummary);
  task : option string;
  startedAt : option string;
  workerCount : option Z;
  maxParallelWorkers : option Z;
  activeWorkers : option Z;
}.

(** The object literal [{ iteration: 0, progress: 0, analysis: '',
    filesCreated: [], isComplete: false, logs: [] }] that a fresh task
    and the history reset install, with the optional [task] and
    [startedAt] of the two plan-driven starts. *)
Definition fresh (task startedAt : option string) : t := {|
  iteration := 0;
  progress := 0;
  analysis := EmptyString;
  filesCreated := [];
  isComplete := false;
  logs := [];
  currentPhase := None;
  currentPhaseName := None;
  currentPhaseId := None;
  totalPhases := None;
  phases := None;
  task := task;
  startedAt := startedAt;
  workerCount := None;
  maxParallelWorkers := None;
  activeWorkers := None;
|}.

(** The value the state initialiser returns when nothing can be
    restored. *)
Definition initial : t := {|
  iteration := 0;
  progress := 0;
  analysis := EmptyString;
  filesCreated := [];
  isComplete := false;
  logs := [];
  currentPhase := None;
  currentPhaseName := None;
  currentPhaseId := None;
  totalPhases := None;
  phases := None;
  task := None;
  startedAt := None;
  workerCount := Some 0;
  maxParallelWorkers := Some 0;
  activeWorkers := Some 0;
|}.



(** Spreading [...prev] and overriding one property. *)
Definition set_iteration (v : Z) (p : t) : t :=
  {| iteration := v; progress := progress p; analysis := analysis p;
     filesCreated := filesCreated p; isComplete := isComplete p;
     logs := logs p; currentPhase := currentPhase p;
     currentPhaseName := currentPhaseName p;
     currentPhaseId := currentPhaseId p; totalPhases := totalPhases p;
     phases := phases p; task := task p; startedAt := startedAt p;
     workerCount := workerCount p;
     maxParallelWorkers := maxParallelWorkers p;
     activeWorkers := activeWorkers p |}.

Definition set_progress (v : Z) (p : t) : t :=
  {| iteration := iteration p; progress := v; analysis := analysis p;
     filesCreated := filesCreated p; isComplete := isComplete p;
     logs := logs p; currentPhase := currentPhase p;
     currentPhaseName := currentPhaseName p;
     currentPhaseId := currentPhaseId p; totalPhases := totalPhases p;
     phases := phases p; task := task p; startedAt := startedAt p;
     workerCount := workerCount p;
     maxParallelWorkers := maxParallelWorkers p;
     activeWorkers := activeWorkers p |}.

Definition set_analysis (v : string) (p : t) : t :=
  {| iteration := iteration p; progress := progress p; analysis := v;
     filesCreated := filesCreated p; isComplete := isComplete p;
     logs := logs p; currentPhase := currentPhase p;
     currentPhaseName := currentPhaseName p;
     currentPhaseId := currentPhaseId p; totalPhases := totalPhases p;
     phases := phases p; task := task p; startedAt := startedAt p;
     workerCount := workerCount p;
     maxParallelWorkers := maxParallelWorkers p;
     activeWorkers := activeWorkers p |}.

Definition set_filesCreated (v : list string) (p : t) : t :=
  {| iteration := iteration p; progress := progress p;
     analysis := analysis p; filesCreated := v;
     isComplete := isComplete p; logs := logs p;
     currentPhase := currentPhase p;
     currentPhaseName := currentPhaseName p;
     currentPhaseId := currentPhaseId p; totalPhases := totalPhases p;
     phases := phases p; task := task p; startedAt := startedAt p;
     workerCount := workerCount p;
     maxParallelWorkers := maxParallelWorkers p;
     activeWorkers := activeWorkers p |}.

Definition set_isComplete (v : bool) (p : t) : t :=
  {| iteration := iteration p; progress := progress p;
     analysis := analysis p; filesCreated := filesCreated p;
     isComplete := v; logs := logs p; currentPhase := currentPhase p;
     currentPhaseName := currentPhaseName p;
     currentPhaseId := currentPhaseId p; totalPhases := totalPhases p;
     phases := phases p; task := task p; startedAt := startedAt p;
     workerCount := workerCount p;
     maxParallelWorkers := maxParallelWorkers p;
     activeWorkers := activeWorkers p |}.

Definition set_logs (v : list LogEntry.t) (p : t) : t :=
  {| iteration := iteration p; progress := progress p;
     analysis := analysis p; filesCreated := filesCreated p;
     isComplete := isComplete p; logs := v;
     currentPhase := currentPhase p;
     currentPhaseName := currentPhaseName p;
     currentPhaseId := currentPhaseId p; totalPhases := totalPhases p;
     phases := phases p; task := task p; startedAt := startedAt p;
     workerCount := workerCount p;
     maxParallelWorkers := maxParallelWorkers p;
     activeWorkers := activeWorkers p |}.

Definition set_currentPhase (v : option string) (p : t) : t :=
  {| iteration := iteration p; progress := progress p;
     analysis := analysis p; filesCreated := filesCreated p;
     isComplete := isComplete p; logs := logs p; currentPhase := v;
     currentPhaseName := currentPhaseName p;
     currentPhaseId := currentPhaseId p; totalPhases := totalPhases p;
     phases := phases p; task := task p; startedAt := startedAt p;
     workerCount := workerCount p;
     maxParallelWorkers := maxParallelWorkers p;
     activeWorkers := activeWorkers p |}.

(** Overriding the three worker counters at once, as the task list's
    progress button does. *)
Definition set_workers (count maxParallel active : option Z) (p : t) : t :=
  {| iteration := iteration p; progress := progress p;
     analysis := analysis p; filesCreated := filesCreated p;
     isComplete := isComplete p; logs := logs p;
     currentPhase := currentPhase p;
     currentPhaseName := currentPhaseName p;
     currentPhaseId := currentPhaseId p; totalPhases := totalPhases p;
     phases := phases p; task := task p; startedAt := startedAt p;
     workerCount := count; maxParallelWorkers := maxParallel;
     activeWorkers := active |}.

End Progress.

(** ** The stream reducer [processAutonomousStream]

    The events are the objects parsed from the [data: ] lines of the
    response, told apart by [event.type]; a property the handler guards
    with [||], [?.] or a truthiness test is optional here. *)

Module Stream.

Inductive event :=
| start (task : option string) (parallel_mode : bool)
        (worker_count : option Z) (has_plan : bool)
| plan_loaded (project_name : option string) (phases_length : option Z)
| iteration_start (iteration : Z)
| phase_start (phase_name : option string)
| decision (progress : option Z) (analysis : option string)
           (parallel_tasks_count : option Z)
| parallel_start (task_count : option Z)
| parallel_complete (files_created : option Z)
| file_created (path : string) (parallel : bool)
| file_deleted (path : option string)
| worker_start (task : option string)
| worker_complete (count : option Z)
| task_complete (reason : option string)
| complete (total_iterations : option Z) (files_created_length : option Z)
| error (message : option string)
| unknown (type : string).

(** [addLog]: keep the last fifty entries and append the new one. *)
Definition addLog (now : JS.Date) (type message : string)
    (prev : Progress.t) : Progress.t :=
  Progress.set_logs
    (JS.slice_last 50 (Progress.logs prev) ++
       [ {| LogEntry.type := type; LogEntry.message := message;
            LogEntry.timestamp := now |} ])
    prev.

Section Runtime.

(** [s.slice(0, n)], the first [n] code units of a string, is the
    built-in of the runtime. *)
Variable slice0 : nat -> string -> string.

(** One turn of the [switch (event.type)]; [now] is what [new Date()]
    reads when the entry is logged. *)
Definition step (now : JS.Date) (ev : event) (prev : Progress.t)
    : Progress.t :=
  match ev with
  | start task parallel_mode worker_count has_plan =>
      addLog now "info"
        ("タスク開始: " +:+ JS.show_str task +:+
         (if parallel_mode
          then " (並列モード: " +:+ JS.show_num worker_count +:+ "ワーカー)"
          else EmptyString) +:+
         (if has_plan then " [計画あり]" else EmptyString))
        prev
  | plan_loaded project_name phases_length =>
      addLog now "plan"
        ("計画読み込み: " +:+ JS.or_string project_name "N/A" +:+
         " (" +:+ pretty (JS.num_or phases_length 0) +:+ "フェーズ)")
        prev
  | iteration_start iteration =>
      addLog now "iteration"
        ("イテレーション " +:+ pretty iteration +:+ " 開始")
        (Progress.set_iteration iteration prev)
  | phase_start phase_name =>
      addLog now "phase"
        ("フェーズ開始: " +:+ JS.show_str phase_name)
        (Progress.set_currentPhase phase_name prev)
  | decision progress analysis parallel_tasks_count =>
      let parallelInfo :=
        if JS.truthy_num parallel_tasks_count
        then " (" +:+ JS.show_num parallel_tasks_count +:+ "タスク並列)"
        else EmptyString in
      addLog now "decision"
        ("進捗 " +:+ JS.show_num progress +:+ "%" +:+ parallelInfo +:+
         ": " +:+ JS.show_str (slice0 80 <$> analysis))
        (Progress.set_analysis (JS.or_string analysis EmptyString)
           (Progress.set_progress (JS.num_or progress 0) prev))
  | parallel_start task_count =>
      addLog now "parallel"
        ("並列実行開始: " +:+ JS.show_num task_count +:+ "タスクを同時実行")
        prev
  | parallel_complete files_created =>
      addLog now "parallel"
        ("並列実行完了: " +:+ JS.show_num files_created +:+ "ファイル作成")
        prev
  | file_created path parallel =>
      let parallelTag := if parallel then " [並列]" else EmptyString in
      addLog now "file"
        ("ファイル作成" +:+ parallelTag +:+ ": " +:+ path)
        (Progress.set_filesCreated
           (JS.new_Set (Progress.filesCreated prev ++ [path])) prev)
  | file_deleted path =>
      addLog now "file" ("ファイル削除: " +:+ JS.show_str path) prev
  | worker_start task =>
      addLog now "worker"
        ("ワーカー実行開始: " +:+ JS.show_str (slice0 50 <$> task))
        prev
  | worker_complete count =>
      addLog now "worker"
        ("ワーカー完了: " +:+ JS.show_num count +:+ "件の結果") prev
  | task_complete reason =>
      addLog now "success" ("タスク完了: " +:+ JS.show_str reason)
        (Progress.set_progress 100 (Progress.set_isComplete true prev))
  | complete total_iterations files_created_length =>
      addLog now "info"
        ("処理終了: " +:+ JS.show_num total_iterations +:+
         "イテレーション, " +:+
         pretty (JS.num_or files_created_length 0) +:+ "ファイル作成")
        prev
  | error message =>
      addLog now "error" ("エラー: " +:+ JS.show_str message) prev
  | unknown _ => prev
  end.

(** The loop over the events of a response, each with its clock
    reading. *)
Definition processAutonomousStream (evs : list (JS.Date * event))
    (prev : Progress.t) : Progress.t :=
  foldl (fun p '(now, ev) => step now ev p) prev evs.

End Runtime.

End Stream.

(** ** The generated plan

    The records are the type the [generatedPlan] cell is declared with.
    The cell itself holds what the plan endpoint answered, a value
    nothing has checked against that type; [to_js] is the object a plan of
    the declared type is at run time, its properties in the order of the
    declaration. *)

Module PlanFile.
Record t := {
  path : string;
  description : string;
  dependencies : list string;
  can_parallelize : bool;
}.

Definition to_js (file : t) : Json.value :=
  Json.Obj
    [ ("path", Json.Str (path file));
      ("description", Json.Str (description file));
      ("dependencies", Json.Arr (Json.Str <$> dependencies file));
      ("can_parallelize", Json.Bool (can_parallelize file)) ].
End PlanFile.

Module PlanPhase.
Record t := {
  phase_id : Z;
  name : string;
  description : string;
  estimated_iterations : Z;
  files_to_create : list PlanFile.t;
  completion_criteria : string;
}.

Definition to_js (phase : t) : Json.value :=
  Json.Obj
    [ ("phase_id", Json.Num (phase_id phase));
      ("name", Json.Str (name phase));
      ("description", Json.Str (description phase));
      ("estimated_iterations", Json.Num (estimated_iterations phase));
      ("files_to_create",
       Json.Arr (PlanFile.to_js <$> files_to_create phase));
      ("completion_criteria", Json.Str (completion_criteria phase)) ].
End PlanPhase.

Module Plan.
Record t := {
  project_name : string;
  description : string;
  architecture : string;
  phases : list PlanPhase.t;
  final_structure : list string;
  completion_criteria : string;
  risks : list string;
}.

Definition to_js (plan : t) : Json.value :=
  Json.Obj
    [ ("project_name", Json.Str (project_name plan));
      ("description", Json.Str (description plan));
      ("architecture", Json.Str (architecture plan));
      ("phases", Json.Arr (PlanPhase.to_js <$> phases plan));
      ("final_structure", Json.Arr (Json.Str <$> final_structure plan));
      ("completion_criteria", Json.Str (completion_criteria plan));
      ("risks", Json.Arr (Json.Str <$> risks plan)) ].

(** The names of the properties of a plan. *)
Definition keys : list string :=
  [ "project_name"; "description"; "architecture"; "phases";
    "final_structure"; "completion_criteria"; "risks" ].
End Plan.

(** ** Requests and answers of the workspace API *)

Module Api.

(** Body of [POST .../autonomous-conductor/plan]; [feedback] and
    [previous_plan] are the two properties added to [requestBody] only
    under their guards, [None] when they are not added. *)
Record plan_body := {
  plan_conductor_model_id : string;
  plan_worker_model_ids : list string;
  plan_task : string;
  plan_max_iterations : Q;
  plan_max_tokens : Z;
  plan_temperature : Q;
  plan_max_parallel_workers : Q;
  feedback : option string;
  previous_plan : option Json.value;
}.

(** Body of [POST .../autonomous-conductor/background]; [approved_plan]
    is [undefined] when the object literal has no such property. *)
Record background_body := {
  conductor_model_id : string;
  worker_model_ids : list string;
  task : string;
  max_iterations : Q;
  max_tokens : Z;
  temperature : Q;
  max_parallel_workers : Q;
  approved_plan : Json.value;
}.

(** Body of [POST /api/workspace/tasks/:id/cancel]. *)
Record cancel_body := {
  purge_files : bool;
  purge_logs : bool;
}.

(** A request, by endpoint; the workspace in the path is the captured
    [selectedWorkspace]. *)
Inductive request :=
| PostPlan (workspace : option string) (body : plan_body)
| PostBackground (workspace : option string) (body : background_body)
| PostCancel (taskId : string) (body : cancel_body)
| PostResume (taskId : string)
| DeleteTask (taskId : string).

(** What an [await fetch(...)] followed by [await response.json()] comes
    to: the promise rejects, or the answer has [response.ok] false, or it
    is ok and carries the parsed body. *)
Inductive outcome (A : Type) :=
| Rejected
| NotOk (status : Z)
| Ok (data : A).
Arguments Rejected {A}.
Arguments NotOk {A} status.
Arguments Ok {A} data.

(** The properties the handlers read from the parsed bodies; [plan] is
    [data.plan] as it was parsed, [undefined] when the body has none. *)
Record plan_answer := {
  plan_success : bool;
  plan : Json.value;
  raw_output : option string;
}.

Record start_answer := {
  success : bool;
  started_task_id : option string;
}.

Record cancel_answer := {
  purged_files : option (list string);
}.

Record resume_answer := {
  task_id : option string;
}.

End Api.

(** ** The generic modal *)

Module Modal.

Inductive kind := info | error | success | warning | confirm.

(** The closures the task handlers and the log panel hand to [showModal]
    as [onConfirm], [onCancel] and [onThird]: [() => cancelTask(taskId,
    ...)] with the arguments it passes, [() => {}], the history reset, and
    the deletion of a task.  The last one reads [currentTaskId] after its
    [await]: it holds the value of the render in which [deleteTask] was
    called. *)
Inductive action :=
| CancelTask (taskId : string) (purgeFiles purgeLogs : option bool)
| DoNothing
| ClearHistory
| DeleteTask (taskId : string) (currentTaskId : option string).

Record t := {
  show : bool;
  type : kind;
  title : string;
  message : string;
  onConfirm : option action;
  onCancel : option action;
  onThird : option action;
  confirmText : option string;
  cancelText : option string;
  thirdText : option string;
}.

(** The [options] argument of [showModal]. *)
Record options := {
  opt_onConfirm : option action;
  opt_onCancel : option action;
  opt_onThird : option action;
  opt_confirmText : option string;
  opt_cancelText : option string;
  opt_thirdText : option string;
}.

Definition no_options : options :=
  {| opt_onConfirm := None; opt_onCancel := None; opt_onThird := None;
     opt_confirmText := None; opt_cancelText := None;
     opt_thirdText := None |}.

Definition closed : t :=
  {| show := false; type := info; title := EmptyString;
     message := EmptyString; onConfirm := None; onCancel := None;
     onThird := None; confirmText := None; cancelText := None;
     thirdText := None |}.

Definition showModal (type : kind) (title message : string)
    (o : options) : t :=
  {| show := true; type := type; title := title; message := message;
     onConfirm := opt_onConfirm o; onCancel := opt_onCancel o;
     onThird := opt_onThird o; confirmText := opt_confirmText o;
     cancelText := opt_cancelText o; thirdText := opt_thirdText o |}.

Definition closeModal (m : t) : t :=
  {| show := false; type := type m; title := title m;
     message := message m; onConfirm := onConfirm m;
     onCancel := onCancel m; onThird := onThird m;
     confirmText := confirmText m; cancelText := cancelText m;
     thirdText := thirdText m |}.

(** The buttons in the footer of the rendered modal, left to right, each
    with its label and the closure its click runs after [closeModal]. *)
Definition buttons (m : t) : list (string * option action) :=
  if show m then
    match type m with
    | confirm =>
        (match thirdText m with
         | Some txt =>
             if JS.truthy txt then [(txt, onThird m)] else []
         | None => []
         end) ++
        [ (JS.or_string (cancelText m) "キャンセル", onCancel m);
          (JS.or_string (confirmText m) "OK", onConfirm m) ]
    | _ => [ ("OK", onConfirm m) ]
    end
  else [].

End Modal.

(** ** [localStorage] *)

Module Storage.

(** The text of a stored item, kept by what [JSON.parse] makes of it:
    the document it denotes, or a text that [JSON.parse] rejects with a
    [SyntaxError].  [JSON.stringify] writes the text of a document, and
    parsing that text gives the document back. *)
Inductive text :=
| Malformed (raw : string)
| Document (doc : Json.json).

(** [if (saved)]: only the empty text is falsy. *)
Definition truthy (t : text) : bool :=
  match t with
  | Malformed raw => JS.truthy raw
  | Document _ => true
  end.

(** [JSON.parse(saved)]; [None] is the thrown [SyntaxError]. *)
Definition parse (t : text) : option Json.value :=
  match t with
  | Malformed _ => None
  | Document doc => Some (Json.of_json doc)
  end.

(** The text [setItem] stores for [JSON.stringify(v)]; [setItem] turns
    the [undefined] of an unserialisable value into its name. *)
Definition written (j : option Json.json) : text :=
  match j with
  | Some doc => Document doc
  | None => Malformed "undefined"
  end.

End Storage.

(** ** Persisting and restoring [autonomousProgress] *)

Module Persist.
Import Json.

Definition key : string := "autonomousProgress".

Definition opt_prop (k : string) (v : option value)
    : list (string * value) :=
  match v with
  | Some x => [(k, x)]
  | None => []
  end.

Definition phase_to_js (p : PhaseSummary) : value :=
  Obj [ ("phase_id", Num (phase_id p)); ("name", Str (name p));
        ("description", Str (description p)) ].

Definition log_to_js (l : LogEntry.t) : value :=
  Obj [ ("type", Str (LogEntry.type l));
        ("message", Str (LogEntry.message l));
        ("timestamp", DateV (LogEntry.timestamp l)) ].

(** The state cell as the object the component holds: the six
    properties every record has, then the optional ones that are set. *)
Definition required_props (p : Progress.t) : list (string * value) :=
  [ ("iteration", Num (Progress.iteration p));
    ("progress", Num (Progress.progress p));
    ("analysis", Str (Progress.analysis p));
    ("filesCreated", Arr (Str <$> Progress.filesCreated p));
    ("isComplete", Bool (Progress.isComplete p));
    ("logs", Arr (log_to_js <$> Progress.logs p)) ].

Definition optional_props (p : Progress.t) : list (string * value) :=
  opt_prop "currentPhase" (Str <$> Progress.currentPhase p) ++
  opt_prop "currentPhaseName" (Str <$> Progress.currentPhaseName p) ++
  opt_prop "currentPhaseId" (Num <$> Progress.currentPhaseId p) ++
  opt_prop "totalPhases" (Num <$> Progress.totalPhases p) ++
  opt_prop "phases"
    ((fun l => Arr (phase_to_js <$> l)) <$> Progress.phases p) ++
  opt_prop "task" (Str <$> Progress.task p) ++
  opt_prop "startedAt" (Str <$> Progress.startedAt p) ++
  opt_prop "workerCount" (Num <$> Progress.workerCount p) ++
  opt_prop "maxParallelWorkers" (Num <$> Progress.maxParallelWorkers p) ++
  opt_prop "activeWorkers" (Num <$> Progress.activeWorkers p).

Definition to_js (p : Progress.t) : value :=
  Obj (required_props p ++ optional_props p).

(** Reading a property of a value that is neither [null] nor
    [undefined], for a name that is no index and not [length]. *)
Definition member (k : string) (v : value) : value :=
  match v with
  | Obj props => get_prop k props
  | _ => Undefined
  end.

(** The own enumerable properties [{...v}] copies. *)
Definition spread (v : value) : list (string * value) :=
  match v with
  | Obj props => props
  | Arr items => imap (fun i x => (pretty i, x)) items
  | Str s =>
      imap (fun i c => (pretty i, Str (String c EmptyString)))
        (String.list_ascii_of_string s)
  | _ => []
  end.

(** [parsed.k = v]. *)
Definition assign (k : string) (v : value) (parsed : value) : value :=
  match parsed with
  | Obj props => Obj (set_prop k v props)
  | _ => parsed
  end.

Section Runtime.

Variable toISOString : Z -> string.
Variable new_Date : value -> JS.Date.

(** The effect that follows every change of [autonomousProgress]. *)
Definition persist (p : Progress.t) (localStorage : gmap string Storage.text)
    : gmap string Storage.text :=
  if bool_decide (0 < length (Progress.logs p))%nat
     || bool_decide (0 < Progress.iteration p)
  then <[key := Storage.written (stringify toISOString (to_js p))]>
         localStorage
  else localStorage.

(** The callback of [parsed.logs.map]; [None] is the [TypeError] of
    reading [timestamp] from [null]. *)
Definition reviveLog (log : value) : option value :=
  match log with
  | Null | Undefined => None
  | _ =>
      Some (Obj (set_prop "timestamp"
                   (DateV (new_Date (member "timestamp" log)))
                   (spread log)))
  end.

(** The [try] block of the initialiser; [None] is any exception it
    throws. *)
Definition tryRestore (saved : Storage.text) : option value :=
  match Storage.parse saved with
  | None => None
  | Some Null | Some Undefined => None
  | Some parsed =>
      let logs := member "logs" parsed in
      if truthy logs then
        match logs with
        | Arr items =>
            match mapM reviveLog items with
            | Some revived => Some (assign "logs" (Arr revived) parsed)
            | None => None
            end
        | _ => None
        end
      else Some parsed
  end.

(** The initialiser of the state cell; [window] tells whether it runs in
    the browser. *)
Definition restore (window : bool)
    (localStorage : gmap string Storage.text) : value :=
  if window then
    match localStorage !! key with
    | Some saved =>
        if Storage.truthy saved then
          match tryRestore saved with
          | Some parsed => parsed
          | None => to_js Progress.initial
          end
        else to_js Progress.initial
    | None => to_js Progress.initial
    end
  else to_js Progress.initial.

(** The properties of an object after [JSON.stringify] and
    [JSON.parse]. *)
Definition reparse (props : list (string * value)) : list (string * value) :=
  map (fun kv : string * json => (fst kv, of_json (snd kv)))
    (stringify_props (stringify toISOString) props).

(** A log entry as [JSON.parse] returns it: the timestamp is what
    [toJSON] wrote. *)
Definition parsedLog (l : LogEntry.t) : value :=
  Obj [ ("type", Str (LogEntry.type l));
        ("message", Str (LogEntry.message l));
        ("timestamp",
         of_json (Date_toJSON toISOString (LogEntry.timestamp l))) ].

(** A log entry after a save and a restore: its timestamp is the [Date]
    built from what [toJSON] wrote for it. *)
Definition revivedLog (l : LogEntry.t) : LogEntry.t :=
  {| LogEntry.type := LogEntry.type l;
     LogEntry.message := LogEntry.message l;
     LogEntry.timestamp :=
       new_Date (of_json (Date_toJSON toISOString (LogEntry.timestamp l))) |}.

Definition revived (p : Progress.t) : Progress.t :=
  Progress.set_logs (revivedLog <$> Progress.logs p) p.

End Runtime.

End Persist.

(** ** The state of the component *)

Module PlanningPhase.
Inductive t := none | generating | review | executing.
End PlanningPhase.

(** The [useState] cells of the autonomous mode, the task the polling
    interval of [pollingIntervalRef] asks for ([None]: no interval), and
    the browser's [localStorage].  [generatedPlan] is [null] or the plan
    of the last successful answer, as it was parsed.  The cells of the
    workspace browser and of the compare and debate modes are left out. *)
Module View.
Record t := {
  selectedWorkspace : option string;
  selectedModels : list string;
  task : string;
  isExecuting : bool;
  conductorModel : string;
  maxIterations : Q;
  maxParallelWorkers : Q;
  autonomousProgress : Progress.t;
  planningPhase : PlanningPhase.t;
  showLogModal : bool;
  showTaskList : bool;
  modal : Modal.t;
  generatedPlan : Json.value;
  planError : option string;
  planFeedback : string;
  currentTaskId : option string;
  pollingIntervalRef : option string;
  localStorage : gmap string Storage.text;
}.

(** The setters: [setX(v)] replaces one cell. *)
Definition setSelectedModels (x : list string) (v : t) : t :=
  {| selectedWorkspace := selectedWorkspace v; selectedModels := x;
     task := task v; isExecuting := isExecuting v;
     conductorModel := conductorModel v; maxIterations := maxIterations v;
     maxParallelWorkers := maxParallelWorkers v;
     autonomousProgress := autonomousProgress v;
     planningPhase := planningPhase v; showLogModal := showLogModal v;
     showTaskList := showTaskList v; modal := modal v;
     generatedPlan := generatedPlan v; planError := planError v;
     planFeedback := planFeedback v; currentTaskId := currentTaskId v;
     pollingIntervalRef := pollingIntervalRef v;
     localStorage := localStorage v |}.

Definition setIsExecuting (x : bool) (v : t) : t :=
  {| selectedWorkspace := selectedWorkspace v;
     selectedModels := selectedModels v; task := task v; isExecuting := x;
     conductorModel := conductorModel v; maxIterations := maxIterations v;
     maxParallelWorkers := maxParallelWorkers v;
     autonomousProgress := autonomousProgress v;
     planningPhase := planningPhase v; showLogModal := showLogModal v;
     showTaskList := showTaskList v; modal := modal v;
     generatedPlan := generatedPlan v; planError := planError v;
     planFeedback := planFeedback v; currentTaskId := currentTaskId v;
     pollingIntervalRef := pollingIntervalRef v;
     localStorage := localStorage v |}.

Definition setConductorModel (x : string) (v : t) : t :=
  {| selectedWorkspace := selectedWorkspace v;
     selectedModels := selectedModels v; task := task v;
     isExecuting := isExecuting v; conductorModel := x;
     maxIterations := maxIterations v;
     maxParallelWorkers := maxParallelWorkers v;
     autonomousProgress := autonomousProgress v;
     planningPhase := planningPhase v; showLogModal := showLogModal v;
     showTaskList := showTaskList v; modal := modal v;
     generatedPlan := generatedPlan v; planError := planError v;
     planFeedback := planFeedback v; currentTaskId := currentTaskId v;
     pollingIntervalRef := pollingIntervalRef v;
     localStorage := localStorage v |}.

Definition setMaxIterations (x : Q) (v : t) : t :=
  {| selectedWorkspace := selectedWorkspace v;
     selectedModels := selectedModels v; task := task v;
     isExecuting := isExecuting v; conductorModel := conductorModel v;
     maxIterations := x; maxParallelWorkers := maxParallelWorkers v;
     autonomousProgress := autonomousProgress v;
     planningPhase := planningPhase v; showLogModal := showLogModal v;
     showTaskList := showTaskList v; modal := modal v;
     generatedPlan := generatedPlan v; planError := planError v;
     planFeedback := planFeedback v; currentTaskId := currentTaskId v;
     pollingIntervalRef := pollingIntervalRef v;
     localStorage := localStorage v |}.

Definition setMaxParallelWorkers (x : Q) (v : t) : t :=
  {| selectedWorkspace := selectedWorkspace v;
     selectedModels := selectedModels v; task := task v;
     isExecuting := isExecuting v; conductorModel := conductorModel v;
     maxIterations := maxIterations v; maxParallelWorkers := x;
     autonomousProgress := autonomousProgress v;
     planningPhase := planningPhase v; showLogModal := showLogModal v;
     showTaskList := showTaskList v; modal := modal v;
     generatedPlan := generatedPlan v; planError := planError v;
     planFeedback := planFeedback v; currentTaskId := currentTaskId v;
     pollingIntervalRef := pollingIntervalRef v;
     localStorage := localStorage v |}.

Definition setAutonomousProgress (x : Progress.t) (v : t) : t :=
  {| selectedWorkspace := selectedWorkspace v;
     selectedModels := selectedModels v; task := task v;
     isExecuting := isExecuting v; conductorModel := conductorModel v;
     maxIterations := maxIterations v;
     maxParallelWorkers := maxParallelWorkers v; autonomousProgress := x;
     planningPhase := planningPhase v; showLogModal := showLogModal v;
     showTaskList := showTaskList v; modal := modal v;
     generatedPlan := generatedPlan v; planError := planError v;
     planFeedback := planFeedback v; currentTaskId := currentTaskId v;
     pollingIntervalRef := pollingIntervalRef v;
     localStorage := localStorage v |}.

Definition setPlanningPhase (x : PlanningPhase.t) (v : t) : t :=
  {| selectedWorkspace := selectedWorkspace v;
     selectedModels := selectedModels v; task := task v;
     isExecuting := isExecuting v; conductorModel := conductorModel v;
     maxIterations := maxIterations v;
     maxParallelWorkers := maxParallelWorkers v;
     autonomousProgress := autonomousProgress v; planningPhase := x;
     showLogModal := showLogModal v; showTaskList := showTaskList v;
     modal := modal v; generatedPlan := generatedPlan v;
     planError := planError v; planFeedback := planFeedback v;
     currentTaskId := currentTaskId v;
     pollingIntervalRef := pollingIntervalRef v;
     localStorage := localStorage v |}.

Definition setShowLogModal (x : bool) (v : t) : t :=
  {| selectedWorkspace := selectedWorkspace v;
     selectedModels := selectedModels v; task := task v;
     isExecuting := isExecuting v; conductorModel := conductorModel v;
     maxIterations := maxIterations v;
     maxParallelWorkers := maxParallelWorkers v;
     autonomousProgress := autonomousProgress v;
     planningPhase := planningPhase v; showLogModal := x;
     showTaskList := showTaskList v; modal := modal v;
     generatedPlan := generatedPlan v; planError := planError v;
     planFeedback := planFeedback v; currentTaskId := currentTaskId v;
     pollingIntervalRef := pollingIntervalRef v;
     localStorage := localStorage v |}.

Definition setShowTaskList (x : bool) (v : t) : t :=
  {| selectedWorkspace := selectedWorkspace v;
     selectedModels := selectedModels v; task := task v;
     isExecuting := isExecuting v; conductorModel := conductorModel v;
     maxIterations := maxIterations v;
     maxParallelWorkers := maxParallelWorkers v;
     autonomousProgress := autonomousProgress v;
     planningPhase := planningPhase v; showLogModal := showLogModal v;
     showTaskList := x; modal := modal v;
     generatedPlan := generatedPlan v; planError := planError v;
     planFeedback := planFeedback v; currentTaskId := currentTaskId v;
     pollingIntervalRef := pollingIntervalRef v;
     localStorage := localStorage v |}.

Definition setModal (x : Modal.t) (v : t) : t :=
  {| selectedWorkspace := selectedWorkspace v;
     selectedModels := selectedModels v; task := task v;
     isExecuting := isExecuting v; conductorModel := conductorModel v;
     maxIterations := maxIterations v;
     maxParallelWorkers := maxParallelWorkers v;
     autonomousProgress := autonomousProgress v;
     planningPhase := planningPhase v; showLogModal := showLogModal v;
     showTaskList := showTaskList v; modal := x;
     generatedPlan := generatedPlan v; planError := planError v;
     planFeedback := planFeedback v; currentTaskId := currentTaskId v;
     pollingIntervalRef := pollingIntervalRef v;
     localStorage := localStorage v |}.

Definition setGeneratedPlan (x : Json.value) (v : t) : t :=
  {| selectedWorkspace := selectedWorkspace v;
     selectedModels := selectedModels v; task := task v;
     isExecuting := isExecuting v; conductorModel := conductorModel v;
     maxIterations := maxIterations v;
     maxParallelWorkers := maxParallelWorkers v;
     autonomousProgress := autonomousProgress v;
     planningPhase := planningPhase v; showLogModal := showLogModal v;
     showTaskList := showTaskList v; modal := modal v; generatedPlan := x;
     planError := planError v; planFeedback := planFeedback v;
     currentTaskId := currentTaskId v;
     pollingIntervalRef := pollingIntervalRef v;
     localStorage := localStorage v |}.

Definition setPlanError (x : option string) (v : t) : t :=
  {| selectedWorkspace := selectedWorkspace v;
     selectedModels := selectedModels v; task := task v;
     isExecuting := isExecuting v; conductorModel := conductorModel v;
     maxIterations := maxIterations v;
     maxParallelWorkers := maxParallelWorkers v;
     autonomousProgress := autonomousProgress v;
     planningPhase := planningPhase v; showLogModal := showLogModal v;
     showTaskList := showTaskList v; modal := modal v;
     generatedPlan := generatedPlan v; planError := x;
     planFeedback := planFeedback v; currentTaskId := currentTaskId v;
     pollingIntervalRef := pollingIntervalRef v;
     localStorage := localStorage v |}.

Definition setPlanFeedback (x : string) (v : t) : t :=
  {| selectedWorkspace := selectedWorkspace v;
     selectedModels := selectedModels v; task := task v;
     isExecuting := isExecuting v; conductorModel := conductorModel v;
     maxIterations := maxIterations v;
     maxParallelWorkers := maxParallelWorkers v;
     autonomousProgress := autonomousProgress v;
     planningPhase := planningPhase v; showLogModal := showLogModal v;
     showTaskList := showTaskList v; modal := modal v;
     generatedPlan := generatedPlan v; planError := planError v;
     planFeedback := x; currentTaskId := currentTaskId v;
     pollingIntervalRef := pollingIntervalRef v;
     localStorage := localStorage v |}.

Definition setCurrentTaskId (x : option string) (v : t) : t :=
  {| selectedWorkspace := selectedWorkspace v;
     selectedModels := selectedModels v; task := task v;
     isExecuting := isExecuting v; conductorModel := conductorModel v;
     maxIterations := maxIterations v;
     maxParallelWorkers := maxParallelWorkers v;
     autonomousProgress := autonomousProgress v;
     planningPhase := planningPhase v; showLogModal := showLogModal v;
     showTaskList := showTaskList v; modal := modal v;
     generatedPlan := generatedPlan v; planError := planError v;
     planFeedback := planFeedback v; currentTaskId := x;
     pollingIntervalRef := pollingIntervalRef v;
     localStorage := localStorage v |}.

Definition setPollingIntervalRef (x : option string) (v : t) : t :=
  {| selectedWorkspace := selectedWorkspace v;
     selectedModels := selectedModels v; task := task v;
     isExecuting := isExecuting v; conductorModel := conductorModel v;
     maxIterations := maxIterations v;
     maxParallelWorkers := maxParallelWorkers v;
     autonomousProgress := autonomousProgress v;
     planningPhase := planningPhase v; showLogModal := showLogModal v;
     showTaskList := showTaskList v; modal := modal v;
     generatedPlan := generatedPlan v; planError := planError v;
     planFeedback := planFeedback v; currentTaskId := currentTaskId v;
     pollingIntervalRef := x; localStorage := localStorage v |}.

Definition setLocalStorage (x : gmap string Storage.text) (v : t) : t :=
  {| selectedWorkspace := selectedWorkspace v;
     selectedModels := selectedModels v; task := task v;
     isExecuting := isExecuting v; conductorModel := conductorModel v;
     maxIterations := maxIterations v;
     maxParallelWorkers := maxParallelWorkers v;
     autonomousProgress := autonomousProgress v;
     planningPhase := planningPhase v; showLogModal := showLogModal v;
     showTaskList := showTaskList v; modal := modal v;
     generatedPlan := generatedPlan v; planError := planError v;
     planFeedback := planFeedback v; currentTaskId := currentTaskId v;
     pollingIntervalRef := pollingIntervalRef v; localStorage := x |}.

Definition setSelectedWorkspace (x : option string) (v : t) : t :=
  {| selectedWorkspace := x; selectedModels := selectedModels v;
     task := task v; isExecuting := isExecuting v;
     conductorModel := conductorModel v; maxIterations := maxIterations v;
     maxParallelWorkers := maxParallelWorkers v;
     autonomousProgress := autonomousProgress v;
     planningPhase := planningPhase v; showLogModal := showLogModal v;
     showTaskList := showTaskList v; modal := modal v;
     generatedPlan := generatedPlan v; planError := planError v;
     planFeedback := planFeedback v; currentTaskId := currentTaskId v;
     pollingIntervalRef := pollingIntervalRef v;
     localStorage := localStorage v |}.

Definition setTask (x : string) (v : t) : t :=
  {| selectedWorkspace := selectedWorkspace v;
     selectedModels := selectedModels v; task := x;
     isExecuting := isExecuting v; conductorModel := conductorModel v;
     maxIterations := maxIterations v;
     maxParallelWorkers := maxParallelWorkers v;
     autonomousProgress := autonomousProgress v;
     planningPhase := planningPhase v; showLogModal := showLogModal v;
     showTaskList := showTaskList v; modal := modal v;
     generatedPlan := generatedPlan v; planError := planError v;
     planFeedback := planFeedback v; currentTaskId := currentTaskId v;
     pollingIntervalRef := pollingIntervalRef v;
     localStorage := localStorage v |}.

End View.

(** ** The handlers of [CodeEditorView] *)

Module CodeEditorView.
Import View.

Section Handlers.

(** Built-ins: [String.prototype.trim], the [Date] constructor,
    [Date.prototype.toISOString], the iterator of a string, which lists
    its code points, each as a string, and [s.slice(0, n)]. *)
Variable trim : string -> string.
Variable new_Date : Json.value -> JS.Date.
Variable toISOString : Z -> string.
Variable codePoints : string -> list string.
Variable slice0 : nat -> string -> string.

(** *** Persistence effect and polling *)

(** [useEffect(..., [autonomousProgress])]. *)
Definition persistProgress (v : t) : t :=
  setLocalStorage
    (Persist.persist toISOString (autonomousProgress v) (localStorage v)) v.

Definition stopPolling (v : t) : t := setPollingIntervalRef None v.

(** [startPolling(taskId)] replaces the running interval by one that
    polls [taskId]; what each poll brings back is folded in by [poll]. *)
Definition startPolling (taskId : string) (v : t) : t :=
  setPollingIntervalRef (Some taskId) v.

(** The first update of a poll: the task record over [...prev]. *)
Definition pollStatus (task : BackgroundTask.t) (prev : Progress.t)
    : Progress.t :=
  {| Progress.iteration := BackgroundTask.iteration task;
     Progress.progress := BackgroundTask.progress task;
     Progress.analysis := BackgroundTask.analysis task;
     Progress.filesCreated := BackgroundTask.files_created task;
     Progress.isComplete := BackgroundTask.is_complete task;
     Progress.logs := Progress.logs prev;
     Progress.currentPhase :=
       JS.or_undefined (BackgroundTask.current_phase task);
     Progress.currentPhaseName :=
       JS.or_undefined (BackgroundTask.current_phase_name task);
     Progress.currentPhaseId :=
       JS.num_or_undefined (BackgroundTask.current_phase_id task);
     Progress.totalPhases :=
       JS.num_or_undefined (BackgroundTask.total_phases task);
     Progress.phases := BackgroundTask.phases task;
     Progress.task := Progress.task prev;
     Progress.startedAt := Progress.startedAt prev;
     Progress.workerCount :=
       JS.num_or_else (BackgroundTask.worker_count task)
         (Progress.workerCount prev);
     Progress.maxParallelWorkers :=
       JS.num_or_else (BackgroundTask.max_parallel_workers task)
         (Progress.maxParallelWorkers prev);
     Progress.activeWorkers :=
       JS.num_nullish (BackgroundTask.active_workers task)
         (Progress.activeWorkers prev) |}.

(** The second update: the fetched log lines replace the log when there
    are any. *)
Definition pollLogs (logs : list TaskLog.t) (prev : Progress.t)
    : Progress.t :=
  if bool_decide (0 < length logs)%nat then
    Progress.set_logs
      ((fun log =>
          {| LogEntry.type := TaskLog.type log;
             LogEntry.message := TaskLog.message log;
             LogEntry.timestamp :=
               new_Date (Json.Str (TaskLog.timestamp log)) |}) <$> logs)
      prev
  else prev.

Definition finished (s : TaskStatus.t) : bool :=
  bool_decide (s ∈ [TaskStatus.completed; TaskStatus.stopped;
                    TaskStatus.error; TaskStatus.cancelled]).

(** One run of [poll]: [task] is what [fetchTaskStatus] returned ([None]
    for its [null]) and [logs] what [fetchTaskLogs] returned. *)
Definition poll (task : option BackgroundTask.t) (logs : list TaskLog.t)
    (v : t) : t :=
  match task with
  | None => v
  | Some task =>
      let v1 :=
        setAutonomousProgress
          (pollLogs logs (pollStatus task (autonomousProgress v))) v in
      if finished (BackgroundTask.status task) then
        setPlanningPhase PlanningPhase.none
          (setIsExecuting false (stopPolling v1))
      else v1
  end.

(** *** Starting a task *)

(** [!selectedWorkspace || !conductorModel || selectedModels.length === 0
    || !task.trim()]. *)
Definition inputMissing (v : t) : bool :=
  negb (JS.truthy (JS.or_string (selectedWorkspace v) EmptyString))
  || negb (JS.truthy (conductorModel v))
  || bool_decide (length (selectedModels v) = 0%nat)
  || negb (JS.truthy (trim (task v))).

Definition inputWarning : Modal.t :=
  Modal.showModal Modal.warning "入力エラー"
    "ワークスペース、指揮者モデル、ワーカーモデル、タスクを選択/入力してください"
    Modal.no_options.

(** [selectedModels.filter(m => m !== conductorModel)]. *)
Definition workerModels (v : t) : list string :=
  filter (fun m => m ≠ conductorModel v) (selectedModels v).

Definition backgroundBody (approved_plan : Json.value) (v : t)
    : Api.background_body :=
  {| Api.conductor_model_id := conductorModel v;
     Api.worker_model_ids := workerModels v;
     Api.task := trim (task v);
     Api.max_iterations := maxIterations v;
     Api.max_tokens := 4000;
     Api.temperature := 7 # 10;
     Api.max_parallel_workers := maxParallelWorkers v;
     Api.approved_plan := approved_plan |}.

(** [startBackgroundTask], up to its [fetch]. *)
Definition startBackgroundTask (v : t) : t * option Api.request :=
  if inputMissing v then (setModal inputWarning v, None)
  else
    (setAutonomousProgress (Progress.fresh None None)
       (setPlanningPhase PlanningPhase.executing (setIsExecuting true v)),
     Some (Api.PostBackground (selectedWorkspace v)
             (backgroundBody (generatedPlan v) v))).

(** The [catch] block shared by the three ways to start a task. *)
Definition startFailed (message : string) (v : t) : t :=
  setPlanningPhase PlanningPhase.none
    (setIsExecuting false
       (setModal (Modal.showModal Modal.error "エラー" message
                    Modal.no_options) v)).

(** [data.success && data.task_id]: the id when both are truthy. *)
Definition startedTask (data : Api.start_answer) : option string :=
  if Api.success data then JS.or_undefined (Api.started_task_id data)
  else None.

Definition startBackgroundTask_done (o : Api.outcome Api.start_answer)
    (v : t) : t :=
  match o with
  | Api.Ok data =>
      match startedTask data with
      | Some taskId => startPolling taskId (setCurrentTaskId (Some taskId) v)
      | None => v
      end
  | _ => startFailed "バックグラウンドタスクの開始に失敗しました" v
  end.

(** [handleApprovePlanAndExecute]; [now] is the time [new Date()] reads. *)
Definition handleApprovePlanAndExecute (now : Z) (v : t)
    : t * option Api.request :=
  if negb (Json.truthy (generatedPlan v)) then (v, None)
  else
    (setAutonomousProgress
       (Progress.fresh (Some (trim (task v))) (Some (toISOString now)))
       (setIsExecuting true
          (setPlanningPhase PlanningPhase.executing v)),
     Some (Api.PostBackground (selectedWorkspace v)
             (backgroundBody (generatedPlan v) v))).

(** In the two plan-driven starts an answer without a task id throws
    too. *)
Definition planStart_done (message : string)
    (o : Api.outcome Api.start_answer) (v : t) : t :=
  match o with
  | Api.Ok data =>
      match startedTask data with
      | Some taskId => startPolling taskId (setCurrentTaskId (Some taskId) v)
      | None => startFailed message v
      end
  | _ => startFailed message v
  end.

Definition handleApprovePlanAndExecute_done :=
  planStart_done "計画に基づく実行に失敗しました".

(** [handleAutonomousConductorDirect]: the same start without a plan. *)
Definition handleAutonomousConductorDirect (now : Z) (v : t)
    : t * option Api.request :=
  if inputMissing v then (setModal inputWarning v, None)
  else
    (setAutonomousProgress
       (Progress.fresh (Some (trim (task v))) (Some (toISOString now)))
       (setPlanningPhase PlanningPhase.executing (setIsExecuting true v)),
     Some (Api.PostBackground (selectedWorkspace v)
             (backgroundBody Json.Undefined v))).

Definition handleAutonomousConductorDirect_done :=
  planStart_done "自律型指揮者の実行に失敗しました".

(** *** Cancelling, resuming and deleting a task *)

(** [cancelTask(taskId, purgeFiles = false, purgeLogs = false)], up to
    its [fetch]; an argument left out is [None]. *)
Definition cancelTask (taskId : string) (purgeFiles purgeLogs : option bool)
    : Api.request :=
  Api.PostCancel taskId
    {| Api.purge_files := default false purgeFiles;
       Api.purge_logs := default false purgeLogs |}.

(** [data.purged_files?.length > 0]: the number of purged files when
    there are any. *)
Definition purgedCount (data : Api.cancel_answer) : option nat :=
  match Api.purged_files data with
  | Some files =>
      if bool_decide (0 < length files)%nat then Some (length files)
      else None
  | None => None
  end.

Definition cancelTask_done (purgeLogs : option bool)
    (o : Api.outcome Api.cancel_answer) (v : t) : t :=
  match o with
  | Api.Ok data =>
      let v1 :=
        setCurrentTaskId None
          (setPlanningPhase PlanningPhase.none
             (setIsExecuting false (stopPolling v))) in
      let v2 :=
        if default false purgeLogs then
          setAutonomousProgress
            (Progress.set_filesCreated []
               (Progress.set_logs [] (autonomousProgress v1))) v1
        else v1 in
      match purgedCount data with
      | Some n =>
          setModal
            (Modal.showModal Modal.success "削除完了"
               (pretty n +:+ "個のファイルを削除しました")
               Modal.no_options) v2
      | None => v2
      end
  | _ => v
  end.

(** [cancelTaskWithConfirm(taskId)]. *)
Definition cancelTaskWithConfirm (taskId : string) (v : t) : t :=
  setModal
    (Modal.showModal Modal.confirm "タスクをキャンセル"
       "作成されたファイルをどうしますか？"
       {| Modal.opt_confirmText := Some "ファイルを削除してキャンセル";
          Modal.opt_cancelText := Some "ファイルを残してキャンセル";
          Modal.opt_thirdText := Some "何もしない";
          Modal.opt_onConfirm :=
            Some (Modal.CancelTask taskId (Some true) (Some true));
          Modal.opt_onCancel :=
            Some (Modal.CancelTask taskId (Some false) (Some false));
          Modal.opt_onThird := Some Modal.DoNothing |}) v.

(** The cancel button of a running task in the task list:
    [cancelTask(task.id)]. *)
Definition taskListCancel (task : BackgroundTask.t) : Api.request :=
  cancelTask (BackgroundTask.id task) None None.

(** The condition under which the task list renders the resume button of
    a task. *)
Definition resumeOffered (task : BackgroundTask.t) : bool :=
  (bool_decide (BackgroundTask.status task = TaskStatus.stopped)
   || bool_decide (BackgroundTask.status task = TaskStatus.error)
   || bool_decide (BackgroundTask.status task = TaskStatus.cancelled))
  && negb (BackgroundTask.is_complete task).

(** [resumeTask(taskId)]. *)
Definition resumeTask (taskId : string) : Api.request :=
  Api.PostResume taskId.

Definition resumeTask_done (o : Api.outcome Api.resume_answer) (v : t)
    : t :=
  match o with
  | Api.Ok data =>
      match JS.or_undefined (Api.task_id data) with
      | Some taskId =>
          startPolling taskId
            (setPlanningPhase PlanningPhase.executing
               (setIsExecuting true (setCurrentTaskId (Some taskId) v)))
      | None => v
      end
  | Api.NotOk _ => v
  | Api.Rejected =>
      setModal
        (Modal.showModal Modal.error "エラー" "タスクの再開に失敗しました"
           Modal.no_options) v
  end.

(** The click on the resume button: [resumeTask(task.id);
    setShowTaskList(false)]. *)
Definition resumeClick (task : BackgroundTask.t) (v : t)
    : t * Api.request :=
  (setShowTaskList false v, resumeTask (BackgroundTask.id task)).

(** [deleteTask(taskId)] asks first; its [onConfirm] sends the request.
    The closure is made in the render [deleteTask] belongs to, and keeps
    the [currentTaskId] of that render. *)
Definition deleteTask (taskId : string) (v : t) : t :=
  setModal
    (Modal.showModal Modal.confirm "タスクを削除" "このタスクを削除しますか？"
       {| Modal.opt_confirmText := Some "削除";
          Modal.opt_cancelText := Some "キャンセル";
          Modal.opt_thirdText := None;
          Modal.opt_onConfirm :=
            Some (Modal.DeleteTask taskId (currentTaskId v));
          Modal.opt_onCancel := None;
          Modal.opt_onThird := None |}) v.

(** The rest of that [onConfirm], once the endpoint has answered:
    [currentTaskId] is the value the closure kept, not the one of the
    state the answer meets. *)
Definition deleteTask_done (currentTaskId : option string)
    (taskId : string) (o : Api.outcome unit) (v : t) : t :=
  match o with
  | Api.Ok _ =>
      if bool_decide (currentTaskId = Some taskId)
      then stopPolling (setCurrentTaskId None v)
      else v
  | _ => v
  end.

(** *** The log panel: clearing the history *)

(** The [onConfirm] of the history modal. *)
Definition clearHistory (v : t) : t :=
  setShowLogModal false
    (setLocalStorage (delete Persist.key (localStorage v))
       (setAutonomousProgress (Progress.fresh None None) v)).

Definition clearHistoryClick (v : t) : t :=
  setModal
    (Modal.showModal Modal.confirm "履歴をクリア" "実行履歴をクリアしますか？"
       {| Modal.opt_confirmText := Some "クリア";
          Modal.opt_cancelText := Some "キャンセル";
          Modal.opt_thirdText := None;
          Modal.opt_onConfirm := Some Modal.ClearHistory;
          Modal.opt_onCancel := None;
          Modal.opt_onThird := None |}) v.

(** *** The modal's buttons *)

(** Running a stored closure: the new state and the requests it sends. *)
Definition run (a : Modal.action) (v : t) : t * list Api.request :=
  match a with
  | Modal.CancelTask taskId purgeFiles purgeLogs =>
      (v, [cancelTask taskId purgeFiles purgeLogs])
  | Modal.DoNothing => (v, [])
  | Modal.ClearHistory => (clearHistory v, [])
  | Modal.DeleteTask taskId _ => (v, [Api.DeleteTask taskId])
  end.

(** A click on a button of the modal: [closeModal()], then the closure
    if there is one. *)
Definition click (callback : option Modal.action) (v : t)
    : t * list Api.request :=
  let v1 := setModal (Modal.closeModal (modal v)) v in
  match callback with
  | Some a => run a v1
  | None => (v1, [])
  end.

(** *** The settings of the autonomous mode *)

(** [Number(e.target.value)] for an [<input type="number">], whose value
    is the empty string ([None]) or a valid number. *)
Definition Number (value : option Q) : Q :=
  match value with
  | Some q => q
  | None => 0
  end.

(** The [onChange] of the two number inputs. *)
Definition onChangeMaxIterations (value : option Q) (v : t) : t :=
  setMaxIterations (Number value) v.

Definition onChangeMaxParallelWorkers (value : option Q) (v : t) : t :=
  setMaxParallelWorkers (JS.clamp 1 50 (Number value)) v.

(** *** Generating a plan *)

(** What the copy of the previous plan goes through.  [None] is a thrown
    [TypeError].  A property can be read from any value but [null] and
    [undefined]; none of the names read below is a property of the
    prototypes of arrays, strings, numbers or booleans, so only an object
    can have one. *)
Definition readable (x : Json.value) : bool :=
  match x with
  | Json.Null | Json.Undefined => false
  | _ => true
  end.

(** [[...x]]: the items of an array or the code points of a string; no
    other value is iterable. *)
Definition spreadItems (x : Json.value) : option (list Json.value) :=
  match x with
  | Json.Arr items => Some items
  | Json.Str text => Some (Json.Str <$> codePoints text)
  | _ => None
  end.

(** [x.map(f)]: only an array has a [map] that can be called, and an
    exception of [f] ends the call. *)
Definition mapItems (f : Json.value -> option Json.value) (x : Json.value)
    : option (list Json.value) :=
  match x with
  | Json.Arr items => mapM f items
  | _ => None
  end.

(** The object literal built for a file, for a phase and for the plan. *)
Definition copyFile (file : Json.value) : option Json.value :=
  if readable file then
    dependencies ← spreadItems (Persist.member "dependencies" file);
    Some (Json.Obj
            [ ("path", Persist.member "path" file);
              ("description", Persist.member "description" file);
              ("dependencies", Json.Arr dependencies);
              ("can_parallelize", Persist.member "can_parallelize" file) ])
  else None.

Definition copyPhase (phase : Json.value) : option Json.value :=
  if readable phase then
    files ← mapItems copyFile (Persist.member "files_to_create" phase);
    Some (Json.Obj
            [ ("phase_id", Persist.member "phase_id" phase);
              ("name", Persist.member "name" phase);
              ("description", Persist.member "description" phase);
              ("estimated_iterations",
               Persist.member "estimated_iterations" phase);
              ("files_to_create", Json.Arr files);
              ("completion_criteria",
               Persist.member "completion_criteria" phase) ])
  else None.

Definition copyPlan (plan : Json.value) : option Json.value :=
  if readable plan then
    phases ← mapItems copyPhase (Persist.member "phases" plan);
    final_structure ← spreadItems (Persist.member "final_structure" plan);
    risks ←
      (if Json.truthy (Persist.member "risks" plan)
       then spreadItems (Persist.member "risks" plan)
       else Some []);
    Some (Json.Obj
            [ ("project_name", Persist.member "project_name" plan);
              ("description", Persist.member "description" plan);
              ("architecture", Persist.member "architecture" plan);
              ("phases", Json.Arr phases);
              ("final_structure", Json.Arr final_structure);
              ("completion_criteria",
               Persist.member "completion_criteria" plan);
              ("risks", Json.Arr risks) ])
  else None.

(** [feedback || planFeedback || undefined]. *)
Definition feedbackToSend (feedback : option string) (v : t)
    : option string :=
  JS.or_undefined (Some (JS.or_string feedback (planFeedback v))).

(** [previousPlanCopy]: [undefined] at first; with feedback and a plan
    held, the copy, or [undefined] again when the copy throws and the
    [catch] block takes over. *)
Definition previousPlanCopy (feedback : option string) (v : t)
    : option Json.value :=
  match feedbackToSend feedback v with
  | Some _ =>
      if Json.truthy (generatedPlan v) then
        match copyPlan (generatedPlan v) with
        | Some copy => Some copy
        | None => None
        end
      else None
  | None => None
  end.

Definition planBody (feedback : option string) (v : t) : Api.plan_body :=
  {| Api.plan_conductor_model_id := conductorModel v;
     Api.plan_worker_model_ids := workerModels v;
     Api.plan_task := trim (task v);
     Api.plan_max_iterations := maxIterations v;
     Api.plan_max_tokens := 4000;
     Api.plan_temperature := 7 # 10;
     Api.plan_max_parallel_workers := maxParallelWorkers v;
     Api.feedback := feedbackToSend feedback v;
     Api.previous_plan :=
       match feedbackToSend feedback v with
       | Some _ => previousPlanCopy feedback v
       | None => None
       end |}.

(** [handleGeneratePlan(feedback)], up to its [fetch]. *)
Definition handleGeneratePlan (feedback : option string) (v : t)
    : t * option Api.request :=
  if inputMissing v then (setModal inputWarning v, None)
  else
    (setPlanError None
       (setGeneratedPlan Json.Null
          (setPlanningPhase PlanningPhase.generating v)),
     Some (Api.PostPlan (selectedWorkspace v) (planBody feedback v))).

(** [data.success && data.plan]: the plan when both are truthy. *)
Definition planReceived (data : Api.plan_answer) : option Json.value :=
  if Api.plan_success data && Json.truthy (Api.plan data)
  then Some (Api.plan data)
  else None.

Definition handleGeneratePlan_done (o : Api.outcome Api.plan_answer)
    (v : t) : t :=
  match o with
  | Api.Ok data =>
      match planReceived data with
      | Some plan =>
          setPlanFeedback EmptyString
            (setPlanningPhase PlanningPhase.review
               (setGeneratedPlan plan v))
      | None =>
          setPlanningPhase PlanningPhase.none
            (setPlanError
               (Some ("計画の生成に失敗しました: " +:+
                      JS.or_string (Api.raw_output data) "Unknown error"))
               v)
      end
  | _ =>
      setPlanningPhase PlanningPhase.none
        (setPlanError (Some "計画生成中にエラーが発生しました") v)
  end.

(** The plan an outcome carries, if it is a success with a plan. *)
Definition planOf (o : Api.outcome Api.plan_answer)
    : option Json.value :=
  match o with
  | Api.Ok data => planReceived data
  | _ => None
  end.

(** The cancel button of the plan review. *)
Definition discardPlan (v : t) : t :=
  setPlanFeedback EmptyString
    (setGeneratedPlan Json.Null (setPlanningPhase PlanningPhase.none v)).

(** *** Plain setters bound to inputs *)

(** [toggleModel(modelId)]. *)
Definition toggleModel (modelId : string) (v : t) : t :=
  setSelectedModels
    (if JS.includes modelId (selectedModels v)
     then filter (fun id => id ≠ modelId) (selectedModels v)
     else selectedModels v ++ [modelId]) v.

(** The header of a provider in the model list: deselect its models when
    all are selected, select them all otherwise. *)
Definition toggleProvider (providerModelIds : list string) (v : t) : t :=
  if forallb (fun id => JS.includes id (selectedModels v)) providerModelIds
  then
    setSelectedModels
      (filter (fun id => id ∉ providerModelIds) (selectedModels v)) v
  else
    setSelectedModels (JS.new_Set (selectedModels v ++ providerModelIds)) v.

(** *** Attaching to a task that exists *)

(** The progress button of a running task in the task list. *)
Definition showProgress (task : BackgroundTask.t) (v : t) : t :=
  let v1 := setCurrentTaskId (Some (BackgroundTask.id task)) v in
  let v2 :=
    match JS.or_undefined (BackgroundTask.conductor_model task) with
    | Some model => setConductorModel model v1
    | None => v1
    end in
  let v3 :=
    match BackgroundTask.worker_models task with
    | Some models => setSelectedModels models v2
    | None => v2
    end in
  let v4 :=
    setAutonomousProgress
      (Progress.set_workers
         (Some (JS.num_or (BackgroundTask.worker_count task) 0))
         (Some (JS.num_or (BackgroundTask.max_parallel_workers task) 0))
         (Some (JS.num_or (BackgroundTask.active_workers task) 0))
         (autonomousProgress v3)) v3 in
  setPlanningPhase PlanningPhase.executing
    (setIsExecuting true
       (setShowTaskList false
          (startPolling (BackgroundTask.id task) v4))).

(** The effect at mount, once [fetchTaskStatus(currentTaskId)] has
    answered: a running task is polled, any other is shown as it ended.
    The effect runs once, with the [currentTaskId] of the first render:
    that value, not the one of the state the answer meets, is tested and
    handed to [startPolling]. *)
Definition mountRestore (currentTaskId : option string)
    (task : option BackgroundTask.t) (v : t) : t :=
  match currentTaskId with
  | None => v
  | Some taskId =>
      if negb (JS.truthy taskId) then v
      else
        match task with
        | None => v
        | Some task =>
            if bool_decide (BackgroundTask.status task = TaskStatus.running)
            then
              startPolling taskId
                (setPlanningPhase PlanningPhase.executing
                   (setIsExecuting true v))
            else
              setAutonomousProgress
                {| Progress.iteration := BackgroundTask.iteration task;
                   Progress.progress := BackgroundTask.progress task;
                   Progress.analysis := BackgroundTask.analysis task;
                   Progress.filesCreated :=
                     BackgroundTask.files_created task;
                   Progress.isComplete := BackgroundTask.is_complete task;
                   Progress.logs := [];
                   Progress.currentPhase :=
                     JS.or_undefined (BackgroundTask.current_phase task);
                   Progress.currentPhaseName :=
                     JS.or_undefined
                       (BackgroundTask.current_phase_name task);
                   Progress.currentPhaseId :=
                     JS.num_or_undefined
                       (BackgroundTask.current_phase_id task);
                   Progress.totalPhases :=
                     JS.num_or_undefined (BackgroundTask.total_phases task);
                   Progress.phases := BackgroundTask.phases task;
                   Progress.task := None;
                   Progress.startedAt := None;
                   Progress.workerCount := None;
                   Progress.maxParallelWorkers := None;
                   Progress.activeWorkers := None |} v
        end
  end.

(** [sendAdditionalInstruction], once the endpoint has accepted the
    instruction: it is noted in the log. *)
Definition instructionSent (now : JS.Date) (additionalInstruction : string)
    (v : t) : t :=
  setAutonomousProgress
    (Progress.set_logs
       (Progress.logs (autonomousProgress v) ++
        [ {| LogEntry.type := "instruction";
             LogEntry.message :=
               "追加指示を送信: " +:+
               slice0 50 (trim additionalInstruction) +:+ "...";
             LogEntry.timestamp := now |} ])
       (autonomousProgress v)) v.

(** *** The component as a transition system *)

(** What happens to the component: an interaction of the user, the
    outcome of a request, a poll, a stream event, or the persistence
    effect.  The outcome of a request comes with what the closure that
    sent it kept from its render and reads afterwards: the purge flag of
    a cancellation, the [currentTaskId] of a deletion and of the effect
    at mount, which in a run from [mounted] is the saved task id. *)
Inductive happening :=
| SelectWorkspace (name : string)
| TypeTask (text : string)
| DeselectWorkspace
| SelectAllModels (textModelIds : list string)
| ClearModels
| ToggleProvider (providerModelIds : list string)
| ToggleModel (modelId : string)
| SelectConductor (modelId : string)
| TypeFeedback (text : string)
| ChangeMaxIterations (value : option Q)
| ChangeMaxParallelWorkers (value : option Q)
| Poll (task : option BackgroundTask.t) (logs : list TaskLog.t)
| StreamEvent (now : JS.Date) (ev : Stream.event)
| StartBackgroundTask
| StartBackgroundTaskDone (o : Api.outcome Api.start_answer)
| ApprovePlanAndExecute (now : Z)
| ApprovePlanAndExecuteDone (o : Api.outcome Api.start_answer)
| AutonomousConductorDirect (now : Z)
| AutonomousConductorDirectDone (o : Api.outcome Api.start_answer)
| GeneratePlan (feedback : option string)
| GeneratePlanDone (o : Api.outcome Api.plan_answer)
| DiscardPlan
| CancelTaskWithConfirm (taskId : string)
| CancelTaskDone (purgeLogs : option bool)
    (o : Api.outcome Api.cancel_answer)
| ResumeClick (task : BackgroundTask.t)
| ResumeTaskDone (o : Api.outcome Api.resume_answer)
| DeleteTaskAsk (taskId : string)
| DeleteTaskDone (currentTaskId : option string) (taskId : string)
    (o : Api.outcome unit)
| ClearHistoryClick
| ModalClick (callback : option Modal.action)
| ShowProgress (task : BackgroundTask.t)
| MountRestore (currentTaskId : option string)
    (task : option BackgroundTask.t)
| InstructionSent (now : JS.Date) (additionalInstruction : string)
| ShowLogModal (open : bool)
| ShowTaskList (open : bool)
| PersistProgress.

(** The state after a happening and the requests it sends. *)
Definition react (h : happening) (v : t) : t * list Api.request :=
  match h with
  | SelectWorkspace name => (setSelectedWorkspace (Some name) v, [])
  | TypeTask text => (setTask text v, [])
  | DeselectWorkspace => (setSelectedWorkspace None v, [])
  | SelectAllModels textModelIds => (setSelectedModels textModelIds v, [])
  | ClearModels => (setSelectedModels [] v, [])
  | ToggleProvider providerModelIds =>
      (toggleProvider providerModelIds v, [])
  | ToggleModel modelId => (toggleModel modelId v, [])
  | SelectConductor modelId => (setConductorModel modelId v, [])
  | TypeFeedback text => (setPlanFeedback text v, [])
  | ChangeMaxIterations value => (onChangeMaxIterations value v, [])
  | ChangeMaxParallelWorkers value =>
      (onChangeMaxParallelWorkers value v, [])
  | Poll task logs => (poll task logs v, [])
  | StreamEvent now ev =>
      (setAutonomousProgress
         (Stream.step slice0 now ev (autonomousProgress v)) v, [])
  | StartBackgroundTask =>
      let '(v', r) := startBackgroundTask v in (v', option_list r)
  | StartBackgroundTaskDone o => (startBackgroundTask_done o v, [])
  | ApprovePlanAndExecute now =>
      let '(v', r) := handleApprovePlanAndExecute now v in
      (v', option_list r)
  | ApprovePlanAndExecuteDone o =>
      (handleApprovePlanAndExecute_done o v, [])
  | AutonomousConductorDirect now =>
      let '(v', r) := handleAutonomousConductorDirect now v in
      (v', option_list r)
  | AutonomousConductorDirectDone o =>
      (handleAutonomousConductorDirect_done o v, [])
  | GeneratePlan feedback =>
      let '(v', r) := handleGeneratePlan feedback v in (v', option_list r)
  | GeneratePlanDone o => (handleGeneratePlan_done o v, [])
  | DiscardPlan => (discardPlan v, [])
  | CancelTaskWithConfirm taskId => (cancelTaskWithConfirm taskId v, [])
  | CancelTaskDone purgeLogs o => (cancelTask_done purgeLogs o v, [])
  | ResumeClick task =>
      let '(v', r) := resumeClick task v in (v', [r])
  | ResumeTaskDone o => (resumeTask_done o v, [])
  | DeleteTaskAsk taskId => (deleteTask taskId v, [])
  | DeleteTaskDone currentTaskId taskId o =>
      (deleteTask_done currentTaskId taskId o v, [])
  | ClearHistoryClick => (clearHistoryClick v, [])
  | ModalClick callback => click callback v
  | ShowProgress task => (showProgress task v, [])
  | MountRestore currentTaskId task =>
      (mountRestore currentTaskId task v, [])
  | InstructionSent now additionalInstruction =>
      (instructionSent now additionalInstruction v, [])
  | ShowLogModal open => (setShowLogModal open v, [])
  | ShowTaskList open => (setShowTaskList open v, [])
  | PersistProgress => (persistProgress v, [])
  end.

(** A run: the happenings in order, with all the requests sent. *)
Fixpoint run_all (hs : list happening) (v : t) : t * list Api.request :=
  match hs with
  | [] => (v, [])
  | h :: rest =>
      let '(v1, sent1) := react h v in
      let '(v2, sent2) := run_all rest v1 in
      (v2, (sent1 ++ sent2)%list)
  end.

(** The state at mount: the defaults of the [useState] cells, around the
    restored progress record and task id. *)
Definition mounted (restored : Progress.t) (savedTaskId : option string)
    (storage : gmap string Storage.text) : t :=
  {| selectedWorkspace := None;
     selectedModels := [];
     View.task := EmptyString;
     isExecuting := false;
     conductorModel := EmptyString;
     maxIterations := 100;
     maxParallelWorkers := 10;
     autonomousProgress := restored;
     planningPhase := PlanningPhase.none;
     showLogModal := false;
     showTaskList := false;
     modal := Modal.closed;
     generatedPlan := Json.Null;
     planError := None;
     planFeedback := EmptyString;
     currentTaskId := savedTaskId;
     pollingIntervalRef := None;
     localStorage := storage |}.

(** The policy bound on [maxParallelWorkers]. *)
Definition bounded (v : t) : Prop :=
  (1 <= maxParallelWorkers v <= 50)%Q.

(** The body of a request that carries [max_parallel_workers], and its
    conductor and workers. *)
Definition sentMaxParallelWorkers (r : Api.request) : option Q :=
  match r with
  | Api.PostPlan _ body => Some (Api.plan_max_parallel_workers body)
  | Api.PostBackground _ body => Some (Api.max_parallel_workers body)
  | _ => None
  end.

Definition sentModels (r : Api.request) : option (string * list string) :=
  match r with
  | Api.PostPlan _ body =>
      Some (Api.plan_conductor_model_id body, Api.plan_worker_model_ids body)
  | Api.PostBackground _ body =>
      Some (Api.conductor_model_id body, Api.worker_model_ids body)
  | _ => None
  end.

End Handlers.

End CodeEditorView.

(** ** Sample values *)

Module Samples.

(** Built-ins, as far as the samples need them: strings without outer
    white space, the epoch as the one known date, and strings of ASCII
    characters. *)
Definition trim (s : string) : string := s.

Definition toISOString (ms : Z) : string := "1970-01-01T00:00:00.000Z".

(** The code points of a string of ASCII characters, and its first
    code units. *)
Definition codePoints (s : string) : list string :=
  (fun c => String c EmptyString) <$> String.list_ascii_of_string s.

Definition slice0 (n : nat) (s : string) : string := String.substring 0 n s.

Definition new_Date (v : Json.value) : JS.Date :=
  match v with
  | Json.Str s =>
      if String.eqb s "1970-01-01T00:00:00.000Z" then JS.TimeValue 0
      else JS.InvalidDate
  | Json.Null => JS.TimeValue 0
  | Json.Num n => JS.TimeValue n
  | _ => JS.InvalidDate
  end.

Definition started : LogEntry.t :=
  {| LogEntry.type := "info"; LogEntry.message := "started";
     LogEntry.timestamp := JS.TimeValue 0 |}.

(** A finished task as the client shows it. *)
Definition done : Progress.t :=
  {| Progress.iteration := 3;
     Progress.progress := 100;
     Progress.analysis := "all files written";
     Progress.filesCreated := ["main.py"; "README.md"];
     Progress.isComplete := true;
     Progress.logs := [started];
     Progress.currentPhase := None;
     Progress.currentPhaseName := Some "build";
     Progress.currentPhaseId := Some 1;
     Progress.totalPhases := Some 2;
     Progress.phases := None;
     Progress.task := Some "write a tool";
     Progress.startedAt := None;
     Progress.workerCount := Some 2;
     Progress.maxParallelWorkers := Some 10;
     Progress.activeWorkers := Some 0 |}.

(** A task half way, and a record of it that reports less. *)
Definition halfway : Progress.t :=
  Progress.set_isComplete false (Progress.set_progress 50 done).

Definition behind : BackgroundTask.t :=
  {| BackgroundTask.id := "t1";
     BackgroundTask.workspace := "demo";
     BackgroundTask.task := "write a tool";
     BackgroundTask.status := TaskStatus.running;
     BackgroundTask.created_at := "2025-01-01T00:00:00";
     BackgroundTask.started_at := Some "2025-01-01T00:00:01";
     BackgroundTask.completed_at := None;
     BackgroundTask.iteration := 4;
     BackgroundTask.progress := 10;
     BackgroundTask.analysis := "rewriting";
     BackgroundTask.files_created := ["main.py"; "README.md"];
     BackgroundTask.current_phase := None;
     BackgroundTask.current_phase_name := Some "build";
     BackgroundTask.current_phase_id := Some 1;
     BackgroundTask.total_phases := Some 2;
     BackgroundTask.phases := None;
     BackgroundTask.is_complete := false;
     BackgroundTask.error := None;
     BackgroundTask.conductor_model := Some "conductor";
     BackgroundTask.worker_models := Some ["w1"; "w2"];
     BackgroundTask.worker_count := Some 2;
     BackgroundTask.max_parallel_workers := Some 10;
     BackgroundTask.active_workers := Some 1 |}.

Definition stoppedTask : BackgroundTask.t :=
  {| BackgroundTask.id := "t1";
     BackgroundTask.workspace := "demo";
     BackgroundTask.task := "write a tool";
     BackgroundTask.status := TaskStatus.stopped;
     BackgroundTask.created_at := "2025-01-01T00:00:00";
     BackgroundTask.started_at := Some "2025-01-01T00:00:01";
     BackgroundTask.completed_at := Some "2025-01-01T00:10:00";
     BackgroundTask.iteration := 3;
     BackgroundTask.progress := 50;
     BackgroundTask.analysis := "budget spent";
     BackgroundTask.files_created := ["main.py"; "README.md"];
     BackgroundTask.current_phase := None;
     BackgroundTask.current_phase_name := Some "build";
     BackgroundTask.current_phase_id := Some 1;
     BackgroundTask.total_phases := Some 2;
     BackgroundTask.phases := None;
     BackgroundTask.is_complete := false;
     BackgroundTask.error := None;
     BackgroundTask.conductor_model := Some "conductor";
     BackgroundTask.worker_models := Some ["w1"; "w2"];
     BackgroundTask.worker_count := Some 2;
     BackgroundTask.max_parallel_workers := Some 10;
     BackgroundTask.active_workers := Some 0 |}.

Definition plan : Plan.t :=
  {| Plan.project_name := "tool";
     Plan.description := "a small tool";
     Plan.architecture := "one module";
     Plan.phases :=
       [ {| PlanPhase.phase_id := 1;
            PlanPhase.name := "build";
            PlanPhase.description := "write the code";
            PlanPhase.estimated_iterations := 2;
            PlanPhase.files_to_create :=
              [ {| PlanFile.path := "main.py";
                   PlanFile.description := "entry point";
                   PlanFile.dependencies := [];
                   PlanFile.can_parallelize := true |};
                {| PlanFile.path := "README.md";
                   PlanFile.description := "how to run";
                   PlanFile.dependencies := ["main.py"];
                   PlanFile.can_parallelize := false |} ];
            PlanPhase.completion_criteria := "it runs" |} ];
     Plan.final_structure := ["main.py"; "README.md"];
     Plan.completion_criteria := "it runs";
     Plan.risks := ["rate limits"] |}.

(** The view of a user who selected a conductor among three models, holds
    a plan and looks at the finished task. *)
Definition view : View.t :=
  {| View.selectedWorkspace := Some "demo";
     View.selectedModels := ["conductor"; "w1"; "w2"];
     View.task := "write a tool";
     View.isExecuting := false;
     View.conductorModel := "conductor";
     View.maxIterations := 100;
     View.maxParallelWorkers := 10;
     View.autonomousProgress := done;
     View.planningPhase := PlanningPhase.review;
     View.showLogModal := true;
     View.showTaskList := true;
     View.modal := Modal.closed;
     View.generatedPlan := Plan.to_js plan;
     View.planError := None;
     View.planFeedback := "add tests";
     View.currentTaskId := Some "t1";
     View.pollingIntervalRef := None;
     View.localStorage := ∅ |}.

End Samples.

(** ** Reading a streamed response

    The read loop of [processAutonomousStream] and [handleDebateTask]:
    each chunk, decoded to text, is appended to [buffer]; the buffer is
    split at blank lines; the last piece stays in the buffer and the
    others are the lines handled in this turn. *)

Module Frames.

Definition newline : Ascii.ascii := Ascii.ascii_of_nat 10.

Definition is_newline (c : Ascii.ascii) : bool := Ascii.eqb c newline.

(** The separator ['\n\n']. *)
Definition blank : string := String newline (String newline EmptyString).

(** Putting a code unit in front of the first piece. *)
Definition cons_head (c : Ascii.ascii) (pieces : list string)
    : list string :=
  match pieces with
  | piece :: rest => String c piece :: rest
  | [] => [String c EmptyString]
  end.

(** [s.split('\n\n')]: the pieces between the occurrences of the
    separator found from left to right, one piece for a text without
    it. *)
Fixpoint split (s : string) : list string :=
  match s with
  | EmptyString => [EmptyString]
  | String c rest =>
      if is_newline c then
        match rest with
        | String c2 rest2 =>
            if is_newline c2 then EmptyString :: split rest2
            else cons_head c (split rest)
        | EmptyString => [String c EmptyString]
        end
      else cons_head c (split rest)
  end.

(** [lines.pop() || ''], with the lines left in the array. *)
Definition pop (lines : list string) : list string * string :=
  (removelast lines, List.last lines EmptyString).

(** One turn of the loop: the lines to handle and the new buffer. *)
Definition feed (buffer chunk : string) : list string * string :=
  pop (split (buffer +:+ chunk)).

(** The loop until [done]: the lines handled, in order, and the buffer
    that is dropped at the end. *)
Fixpoint read (chunks : list string) (buffer : string)
    : list string * string :=
  match chunks with
  | [] => ([], buffer)
  | chunk :: rest =>
      let '(lines, buffer1) := feed buffer chunk in
      let '(more, buffer2) := read rest buffer1 in
      ((lines ++ more)%list, buffer2)
  end.

(** [line.startsWith(prefix)] and [line.slice(n)]. *)
Fixpoint startsWith (prefix s : string) : bool :=
  match prefix, s with
  | EmptyString, _ => true
  | String a prefix', String b s' => Ascii.eqb a b && startsWith prefix' s'
  | String _ _, EmptyString => false
  end.

Fixpoint sliceFrom (n : nat) (s : string) : string :=
  match n, s with
  | O, _ => s
  | S n', String _ rest => sliceFrom n' rest
  | S _, EmptyString => EmptyString
  end.

(** The text handed to [JSON.parse] for a line, if the line starts with
    ['data: ']. *)
Definition payload (line : string) : option string :=
  if startsWith "data: " line then Some (sliceFrom 6 line) else None.

Section Handling.

(** What becomes of a text handed to [JSON.parse]: [returns text] is
    [true] when the parse and the statements that handle the parsed event
    return, [false] when one of them throws.  Nothing in the loop catches
    an exception. *)
Variable returns : string -> bool.

(** The texts among [texts] that are handed to [JSON.parse] one after
    the other: all up to the first that throws, that one included. *)
Fixpoint untilThrow (texts : list string) : list string :=
  match texts with
  | [] => []
  | text :: rest =>
      if returns text then text :: untilThrow rest else [text]
  end.

(** The [for] loop over the lines of one turn: the texts handed to
    [JSON.parse] and whether the loop reached its end. *)
Fixpoint handle (lines : list string) : list string * bool :=
  match lines with
  | [] => ([], true)
  | line :: rest =>
      match payload line with
      | Some text =>
          if returns text then
            let '(more, ended) := handle rest in (text :: more, ended)
          else ([text], false)
      | None => handle rest
      end
  end.

(** The whole loop: the texts handed to [JSON.parse], and the buffer it
    ends with when the reader is done, or [None] when an exception ended
    it; the chunks after that are not read. *)
Fixpoint process (chunks : list string) (buffer : string)
    : list string * option string :=
  match chunks with
  | [] => ([], Some buffer)
  | chunk :: rest =>
      let '(lines, buffer1) := feed buffer chunk in
      let '(texts, ended) := handle lines in
      if ended then
        let '(more, final) := process rest buffer1 in
        ((texts ++ more)%list, final)
      else (texts, None)
  end.

End Handling.

(** The text received: the chunks one after the other. *)
Fixpoint received (chunks : list string) : string :=
  match chunks with
  | [] => EmptyString
  | chunk :: rest => chunk +:+ received rest
  end.


(** A text without line feed, and the text of a stream of events, each
    on a [data: ] line closed by a blank line. *)
Fixpoint no_newline (s : string) : bool :=
  match s with
  | EmptyString => true
  | String c rest => negb (is_newline c) && no_newline rest
  end.

Fixpoint sse (events : list string) : string :=
  match events with
  | [] => EmptyString
  | event :: rest => "data: " +:+ event +:+ blank +:+ sse rest
  end.

End Frames.

(** ** What the panels show *)

Module Display.

(** [x.toFixed(1)] for [x = num / den] with [0 <= num] and [0 < den]: the
    number of tenths nearest to [x], the larger one when two are as near,
    written with one decimal. *)
Definition tenths (num den : Z) : Z := (20 * num + den) / (2 * den).

Definition toFixed1 (num den : Z) : string :=
  pretty (tenths num den / 10) +:+ "." +:+ pretty (tenths num den mod 10).

(** [formatFileSize(bytes)] for a whole number of bytes. *)
Definition formatFileSize (bytes : Z) : string :=
  if bytes <? 1024 then pretty bytes +:+ " B"
  else if bytes <? 1024 * 1024 then toFixed1 bytes 1024 +:+ " KB"
  else toFixed1 bytes (1024 * 1024) +:+ " MB".

(** The condition under which the progress of the autonomous mode is
    rendered: [autonomousProgress.iteration > 0 ||
    autonomousProgress.logs.length > 0]. *)
Definition progressShown (p : Progress.t) : bool :=
  bool_decide (0 < Progress.iteration p)
  || bool_decide (0 < length (Progress.logs p))%nat.

End Display.

(** ** Conditions on the state of the component *)

Module Invariant.

(** The review of a plan has a plan, and no plan is held while one is
    being generated. *)
Definition planMatchesPhase (v : View.t) : Prop :=
  (View.planningPhase v = PlanningPhase.review →
   Json.truthy (View.generatedPlan v) = true) ∧
  (View.planningPhase v = PlanningPhase.generating →
   View.generatedPlan v = Json.Null).

(** The task the interval polls is the current task. *)
Definition pollsCurrentTask (v : View.t) : Prop :=
  ∀ taskId,
    View.pollingIntervalRef v = Some taskId →
    View.currentTaskId v = Some taskId.

(** The happenings that are the answer to the effect at mount. *)
Definition mountAnswer (h : CodeEditorView.happening) : bool :=
  match h with
  | CodeEditorView.MountRestore _ _ => true
  | _ => false
  end.

End Invariant.

(** ** More sample values *)

Module MoreSamples.

(** A user who selected the conductor and nothing else. *)
Definition soloView : View.t :=
  View.setSelectedModels ["conductor"] Samples.view.

(** An answer of the background endpoint that names no task. *)
Definition noTask : Api.start_answer :=
  {| Api.success := true; Api.started_task_id := None |}.

Definition accepted : Api.start_answer :=
  {| Api.success := true; Api.started_task_id := Some "t9" |}.

(** The text of a JSON string without escapes, and of an event that has
    only its [type]. *)
Definition quote : string := String (Ascii.ascii_of_nat 34) EmptyString.

Definition quoted (s : string) : string := quote +:+ s +:+ quote.

Definition eventOf (type : string) : string :=
  "{" +:+ quoted "type" +:+ ":" +:+ quoted type +:+ "}".

(** Three events of a response, and a text cut short, which [JSON.parse]
    rejects. *)
Definition started : string := eventOf "start".
Definition created : string := eventOf "file_created".
Definition completed : string := eventOf "task_complete".
Definition cut : string := "{" +:+ quoted "type" +:+ ":".

(** What becomes of these texts in [processAutonomousStream]: the three
    events are parsed and logged, the text cut short throws. *)
Definition returns (text : string) : bool :=
  existsb (String.eqb text) [started; created; completed].

(** A response with the first two events and a line that is not closed,
    cut into three chunks, the first cut inside a blank line. *)
Definition chunks : list string :=
  [ "data: " +:+ started +:+ String Frames.newline EmptyString;
    String Frames.newline ("data: " +:+ created) +:+ Frames.blank +:+
      "data: {";
    "}" ].

(** A response with the three events and, in second place, the text cut
    short. *)
Definition brokenChunks : list string :=
  [ "data: " +:+ started +:+ Frames.blank +:+ "data: " +:+ cut;
    Frames.blank +:+ "data: " +:+ created +:+ Frames.blank;
    "data: " +:+ completed +:+ Frames.blank ].

(** A plan as the review panel can show it, without [final_structure]
    and without [risks]. *)
Definition partialPlan : Json.value :=
  Json.Obj
    [ ("project_name", Json.Str "tool");
      ("description", Json.Str "a small tool");
      ("architecture", Json.Str "one module");
      ("phases", Json.Arr []);
      ("completion_criteria", Json.Str "it runs") ].

(** The user of [Samples.view] holding that plan. *)
Definition partialView : View.t :=
  View.setGeneratedPlan partialPlan Samples.view.

(** A plan of the declared shape but for [risks], which the answer left
    out. *)
Definition riskless : Json.value :=
  Json.Obj
    [ ("project_name", Json.Str "tool");
      ("description", Json.Str "a small tool");
      ("architecture", Json.Str "one module");
      ("phases", Json.Arr []);
      ("final_structure", Json.Arr [Json.Str "main.py"]);
      ("completion_criteria", Json.Str "it runs") ].

End MoreSamples.

(** * Properties *)

Local Open Scope list_scope.

(** ** Sets of paths *)

Module JSFacts.

Lemma elem_of_Set_add (s : list string) (x y : string) :
  y ∈ JS.Set_add s x ↔ y ∈ s ∨ y = x.
Proof.
  unfold JS.Set_add. case_bool_decide as Hx.
  - split; [tauto | intros [?| ->]; done].
  - rewrite elem_of_app, list_elem_of_singleton. tauto.
Qed.

Lemma NoDup_Set_add (s : list string) (x : string) :
  NoDup s → NoDup (JS.Set_add s x).
Proof.
  intros Hs. unfold JS.Set_add. case_bool_decide as Hx; [done |].
  apply NoDup_app. split_and!; [done | | apply NoDup_singleton].
  intros y Hy ->%list_elem_of_singleton. done.
Qed.

(** Folding [Set_add] from any set: the accumulator form of [new Set]. *)
Lemma foldl_Set_add_snoc (acc l : list string) (x : string) :
  foldl JS.Set_add acc (l ++ [x]) = JS.Set_add (foldl JS.Set_add acc l) x.
Proof. by rewrite foldl_app. Qed.

Lemma NoDup_foldl_Set_add (acc l : list string) :
  NoDup acc → NoDup (foldl JS.Set_add acc l).
Proof.
  revert acc. induction l as [| x l IH]; intros acc Hacc; simpl; [done |].
  by apply IH, NoDup_Set_add.
Qed.

Lemma elem_of_foldl_Set_add (acc l : list string) (y : string) :
  y ∈ foldl JS.Set_add acc l ↔ y ∈ acc ∨ y ∈ l.
Proof.
  revert acc. induction l as [| x l IH]; intros acc; simpl.
  - rewrite elem_of_nil. tauto.
  - rewrite IH, elem_of_Set_add, elem_of_cons. tauto.
Qed.

Lemma NoDup_new_Set (l : list string) : NoDup (JS.new_Set l).
Proof. apply NoDup_foldl_Set_add, NoDup_nil_2. Qed.

Lemma elem_of_new_Set (l : list string) (y : string) :
  y ∈ JS.new_Set l ↔ y ∈ l.
Proof.
  unfold JS.new_Set. rewrite elem_of_foldl_Set_add, elem_of_nil. tauto.
Qed.

(** Adding the members of a duplicate-free list to a set they are not in
    appends them in order. *)
Lemma foldl_Set_add_fresh (acc l : list string) :
  NoDup (acc ++ l) → foldl JS.Set_add acc l = acc ++ l.
Proof.
  revert acc. induction l as [| x l IH]; intros acc Hnd; simpl.
  - by rewrite app_nil_r.
  - assert (x ∉ acc) as Hx.
    { apply NoDup_app in Hnd as (_ & Hdisj & _). intros Hin.
      apply (Hdisj x Hin). left. }
    unfold JS.Set_add at 2. rewrite bool_decide_eq_false_2 by done.
    rewrite IH; [by rewrite <- app_assoc |].
    by rewrite <- app_assoc.
Qed.

Lemma new_Set_NoDup (l : list string) : NoDup l → JS.new_Set l = l.
Proof. intros Hl. unfold JS.new_Set. by rewrite foldl_Set_add_fresh. Qed.

Lemma new_Set_snoc (l : list string) (x : string) :
  JS.new_Set (l ++ [x]) = JS.Set_add (JS.new_Set l) x.
Proof. apply foldl_Set_add_snoc. Qed.

End JSFacts.

(** ** The stream reducer *)

Module StreamFacts.
Import Stream.

Section Steps.

Variable slice0 : nat -> string -> string.

Local Abbreviation step := (step slice0).
Local Abbreviation processAutonomousStream :=
  (processAutonomousStream slice0).

(** [addLog] and the other updates leave the file list alone; only
    [file_created] rewrites it. *)
Lemma filesCreated_step now ev prev :
  Progress.filesCreated (step now ev prev) =
  match ev with
  | file_created path _ =>
      JS.new_Set (Progress.filesCreated prev ++ [path])
  | _ => Progress.filesCreated prev
  end.
Proof. by destruct ev. Qed.

Lemma progress_step now ev prev :
  Progress.progress (step now ev prev) =
  match ev with
  | decision progress _ _ => JS.num_or progress 0
  | task_complete _ => 100
  | _ => Progress.progress prev
  end.
Proof. by destruct ev. Qed.

Lemma NoDup_filesCreated_step now ev prev :
  NoDup (Progress.filesCreated prev) →
  NoDup (Progress.filesCreated (step now ev prev)).
Proof.
  intros Hprev. rewrite filesCreated_step.
  destruct ev; auto using JSFacts.NoDup_new_Set.
Qed.

Lemma NoDup_filesCreated_stream evs start :
  NoDup (Progress.filesCreated start) →
  NoDup (Progress.filesCreated (processAutonomousStream evs start)).
Proof.
  unfold Stream.processAutonomousStream. revert start.
  induction evs as [| [now ev] evs IH]; intros start Hstart; simpl.
  - done.
  - by apply IH, NoDup_filesCreated_step.
Qed.

(** C1.  A [file_created] event makes the file list the set union of the
    previous list and the event's path: the new list never has a
    duplicate and holds exactly the previous paths and the new one; on a
    duplicate-free list a path already there leaves the list as it is and
    a new path is appended once; and the list is duplicate-free in every
    state the reducer reaches from a duplicate-free one, the empty list of
    a fresh task in particular. *)
Theorem file_created_set_union :
  (∀ now path parallel prev,
     let next :=
       Progress.filesCreated (step now (file_created path parallel) prev) in
     NoDup next ∧
     (∀ x, x ∈ next ↔ x ∈ Progress.filesCreated prev ∨ x = path) ∧
     (NoDup (Progress.filesCreated prev) →
      (path ∈ Progress.filesCreated prev →
       next = Progress.filesCreated prev) ∧
      (path ∉ Progress.filesCreated prev →
       next = Progress.filesCreated prev ++ [path]))) ∧
  (∀ evs start,
     NoDup (Progress.filesCreated start) →
     NoDup (Progress.filesCreated (processAutonomousStream evs start))) ∧
  (∀ evs task startedAt,
     NoDup (Progress.filesCreated
              (processAutonomousStream evs (Progress.fresh task startedAt)))).
Proof.
  split_and!.
  - intros now path parallel prev next. subst next.
    rewrite filesCreated_step. split_and!.
    + apply JSFacts.NoDup_new_Set.
    + intros x. rewrite JSFacts.elem_of_new_Set, elem_of_app,
        list_elem_of_singleton. tauto.
    + intros Hprev. rewrite JSFacts.new_Set_snoc,
        (JSFacts.new_Set_NoDup _ Hprev).
      unfold JS.Set_add. split; intros Hpath.
      * by rewrite bool_decide_eq_true_2.
      * by rewrite bool_decide_eq_false_2.
  - apply NoDup_filesCreated_stream.
  - intros evs task startedAt. apply NoDup_filesCreated_stream.
    apply NoDup_nil_2.
Qed.

End Steps.

Lemma file_created_set_union_witness :
  Progress.filesCreated
    (step Samples.slice0 (JS.TimeValue 0) (file_created "main.py" false)
       Samples.done) =
  ["main.py"; "README.md"] ∧
  Progress.filesCreated
    (step Samples.slice0 (JS.TimeValue 0) (file_created "test.py" true)
       Samples.done) =
  ["main.py"; "README.md"; "test.py"].
Proof.
  destruct (file_created_set_union Samples.slice0) as (Hstep & _ & _).
  assert (NoDup (Progress.filesCreated Samples.done)) as Hnd
    by compute_done.
  split.
  - destruct (Hstep (JS.TimeValue 0) "main.py" false Samples.done)
      as (_ & _ & Hlist).
    apply (Hlist Hnd). compute_done.
  - destruct (Hstep (JS.TimeValue 0) "test.py" true Samples.done)
      as (_ & _ & Hlist).
    apply (Hlist Hnd). compute_done.
Defined.

End StreamFacts.

(** ** Progress as the client tracks it *)

Module ProgressFacts.
Import CodeEditorView.

(** A poll and a [decision] event each lower the progress of a task half
    way when the engine reports less, and clearing the history sets it to
    zero without a fresh task being started. *)
Lemma progress_can_decrease :
  Progress.progress (pollStatus Samples.behind Samples.halfway) <
    Progress.progress Samples.halfway ∧
  Progress.progress
    (Stream.step Samples.slice0 (JS.TimeValue 0)
       (Stream.decision (Some 10) (Some "rewriting") None)
       Samples.halfway) <
    Progress.progress Samples.halfway ∧
  Progress.progress
    (Stream.step Samples.slice0 (JS.TimeValue 0)
       (Stream.decision None None None) Samples.halfway) = 0 ∧
  Progress.progress
    (View.autonomousProgress
       (clearHistory
          (View.setAutonomousProgress Samples.halfway Samples.view))) = 0 ∧
  Progress.progress Samples.halfway = 50.
Proof. repeat split. Qed.

(** C2, amended.  The client stores the progress it is told: a poll sets
    it to the progress of the polled task and a [decision] event to the
    progress of the event, or to 0 when the event has none; so the new
    value is at least the previous one exactly when the reported one is.
    A fresh task sets it to 0, and so does clearing the history. *)
Theorem progress_follows_reports :
  (∀ task prev,
     Progress.progress (pollStatus task prev) =
       BackgroundTask.progress task ∧
     (Progress.progress prev ≤ Progress.progress (pollStatus task prev) ↔
      Progress.progress prev ≤ BackgroundTask.progress task)) ∧
  (∀ slice0 now progress analysis count prev,
     let next :=
       Stream.step slice0 now (Stream.decision progress analysis count)
         prev in
     Progress.progress next = JS.num_or progress 0 ∧
     (Progress.progress prev ≤ Progress.progress next ↔
      Progress.progress prev ≤ JS.num_or progress 0)) ∧
  (∀ task startedAt,
     Progress.progress (Progress.fresh task startedAt) = 0) ∧
  (∀ v, Progress.progress (View.autonomousProgress (clearHistory v)) = 0).
Proof. repeat split; simpl; auto. Qed.

End ProgressFacts.

(** ** Resuming, cancelling and clearing *)

Module TaskControlFacts.
Import CodeEditorView.

Lemma resumeOffered_spec task :
  resumeOffered task = true ↔
  BackgroundTask.status task ∈
    [TaskStatus.stopped; TaskStatus.error; TaskStatus.cancelled] ∧
  BackgroundTask.is_complete task = false.
Proof.
  unfold resumeOffered.
  rewrite andb_true_iff, negb_true_iff, !orb_true_iff,
    !bool_decide_eq_true.
  rewrite !elem_of_cons, elem_of_nil. tauto.
Qed.

(** No outcome of the resume request touches the progress record. *)
Lemma resumeTask_done_progress o v :
  View.autonomousProgress (resumeTask_done o v) = View.autonomousProgress v.
Proof.
  destruct o as [| status | data]; simpl; try done.
  by destruct (JS.or_undefined (Api.task_id data)).
Qed.

(** C3.  The task list offers to resume a task exactly when its status
    is [stopped], [error] or [cancelled] and it is not complete; the
    click sends the resume request for that task; and when the endpoint
    answers with a task id, the component executes again and polls under
    that id, the progress record (iteration, progress, created files)
    being what it was. *)
Theorem resume_offered_and_reenters :
  (∀ task,
     resumeOffered task = true ↔
     BackgroundTask.status task ∈
       [TaskStatus.stopped; TaskStatus.error; TaskStatus.cancelled] ∧
     BackgroundTask.is_complete task = false) ∧
  (∀ task v,
     (resumeClick task v).2 = Api.PostResume (BackgroundTask.id task)) ∧
  (∀ taskId v,
     JS.truthy taskId = true →
     let v' :=
       resumeTask_done (Api.Ok {| Api.task_id := Some taskId |}) v in
     View.isExecuting v' = true ∧
     View.planningPhase v' = PlanningPhase.executing ∧
     View.currentTaskId v' = Some taskId ∧
     View.pollingIntervalRef v' = Some taskId ∧
     View.autonomousProgress v' = View.autonomousProgress v) ∧
  (∀ o v,
     View.autonomousProgress (resumeTask_done o v) =
     View.autonomousProgress v).
Proof.
  split_and!.
  - apply resumeOffered_spec.
  - done.
  - intros taskId v Htruthy. simpl. by rewrite Htruthy.
  - apply resumeTask_done_progress.
Qed.

Lemma resume_offered_and_reenters_witness :
  resumeOffered Samples.stoppedTask = true ∧
  View.pollingIntervalRef
    (resumeTask_done (Api.Ok {| Api.task_id := Some "t1" |}) Samples.view) =
  Some "t1" ∧
  Progress.iteration
    (View.autonomousProgress
       (resumeTask_done (Api.Ok {| Api.task_id := Some "t1" |})
          Samples.view)) = 3.
Proof.
  destruct resume_offered_and_reenters as (Hoffer & _ & Hdone & _).
  split_and!.
  - apply Hoffer. split; [compute_done | reflexivity].
  - apply (Hdone "t1" Samples.view). reflexivity.
  - destruct (Hdone "t1" Samples.view) as (_ & _ & _ & _ & ->);
      reflexivity.
Defined.

(** C4.  [cancelTask] sends the two purge flags it is given, and [false]
    for a flag left out; a cancel the endpoint accepts with [purgeLogs]
    set empties the log and the created-file list of the progress record
    and keeps its other fields, one without [purgeLogs] keeps the whole
    record, and a cancel the endpoint refuses changes nothing; the
    confirmation modal shows three buttons, which do
    nothing, cancel with both flags [false], and cancel with both flags
    [true]. *)
Theorem cancel_purge_choices :
  (∀ taskId purgeFiles purgeLogs,
     cancelTask taskId (Some purgeFiles) (Some purgeLogs) =
     Api.PostCancel taskId
       {| Api.purge_files := purgeFiles; Api.purge_logs := purgeLogs |}) ∧
  (∀ task,
     taskListCancel task =
     Api.PostCancel (BackgroundTask.id task)
       {| Api.purge_files := false; Api.purge_logs := false |}) ∧
  (∀ data v,
     let p := View.autonomousProgress v in
     let p' :=
       View.autonomousProgress (cancelTask_done (Some true) (Api.Ok data) v)
     in
     Progress.logs p' = [] ∧ Progress.filesCreated p' = [] ∧
     p' = Progress.set_filesCreated [] (Progress.set_logs [] p)) ∧
  (∀ o v,
     View.autonomousProgress (cancelTask_done (Some false) o v) =
       View.autonomousProgress v ∧
     View.autonomousProgress (cancelTask_done None o v) =
       View.autonomousProgress v) ∧
  (∀ purgeLogs status v,
     cancelTask_done purgeLogs (Api.NotOk status) v = v ∧
     cancelTask_done purgeLogs Api.Rejected v = v) ∧
  (∀ taskId v,
     Modal.buttons (View.modal (cancelTaskWithConfirm taskId v)) =
     [ ("何もしない", Some Modal.DoNothing);
       ("ファイルを残してキャンセル",
        Some (Modal.CancelTask taskId (Some false) (Some false)));
       ("ファイルを削除してキャンセル",
        Some (Modal.CancelTask taskId (Some true) (Some true))) ]) ∧
  (∀ taskId v,
     (click (Some Modal.DoNothing) v).2 = [] ∧
     (click (Some (Modal.CancelTask taskId (Some false) (Some false))) v).2 =
       [ Api.PostCancel taskId
           {| Api.purge_files := false; Api.purge_logs := false |} ] ∧
     (click (Some (Modal.CancelTask taskId (Some true) (Some true))) v).2 =
       [ Api.PostCancel taskId
           {| Api.purge_files := true; Api.purge_logs := true |} ]).
Proof.
  split_and!; try done.
  - intros data v. simpl. by destruct (purgedCount data).
  - intros o v.
    destruct o as [| status | data]; simpl; try done.
    by destruct (purgedCount data).
Qed.

(** Clearing the history of a finished task: the record that said
    complete, three iterations and full progress says not complete, no
    iteration and no progress afterwards. *)
Lemma clear_history_resets_status :
  Progress.isComplete (View.autonomousProgress Samples.view) = true ∧
  Progress.iteration (View.autonomousProgress Samples.view) = 3 ∧
  Progress.progress (View.autonomousProgress Samples.view) = 100 ∧
  Progress.isComplete
    (View.autonomousProgress (clearHistory Samples.view)) = false ∧
  Progress.iteration
    (View.autonomousProgress (clearHistory Samples.view)) = 0 ∧
  Progress.progress
    (View.autonomousProgress (clearHistory Samples.view)) = 0.
Proof. repeat split. Qed.

(** C5, amended.  Clearing the history puts the whole progress record
    back to that of a fresh task: no log, no created file, iteration 0,
    progress 0, not complete, no phase and no worker count.  It removes
    the record persisted under [autonomousProgress], after which the
    persistence effect stores nothing; it closes the log panel, sends no
    request and keeps the other cells of the view. *)
Theorem clear_history_resets_record :
  ∀ toISOString v,
    let v' := clearHistory v in
    View.autonomousProgress v' = Progress.fresh None None ∧
    Progress.logs (View.autonomousProgress v') = [] ∧
    Progress.filesCreated (View.autonomousProgress v') = [] ∧
    Progress.isComplete (View.autonomousProgress v') = false ∧
    Progress.iteration (View.autonomousProgress v') = 0 ∧
    Progress.progress (View.autonomousProgress v') = 0 ∧
    View.localStorage v' = delete Persist.key (View.localStorage v) ∧
    View.localStorage v' !! Persist.key = None ∧
    persistProgress toISOString v' = v' ∧
    run Modal.ClearHistory v = (v', []) ∧
    View.showLogModal v' = false ∧
    View.currentTaskId v' = View.currentTaskId v ∧
    View.pollingIntervalRef v' = View.pollingIntervalRef v ∧
    View.isExecuting v' = View.isExecuting v ∧
    View.planningPhase v' = View.planningPhase v ∧
    View.generatedPlan v' = View.generatedPlan v.
Proof.
  intros toISOString v v'. subst v'. split_and!; try done.
  simpl. apply lookup_delete_eq.
Qed.

End TaskControlFacts.

(** ** What the requests carry *)

Module RequestFacts.
Import CodeEditorView.

Lemma clamp_bounds (lo hi x : Q) :
  (lo <= hi)%Q → (lo <= JS.clamp lo hi x <= hi)%Q.
Proof.
  intros Hle. unfold JS.clamp. split.
  - apply Q.min_glb; [done | apply Q.le_max_l].
  - apply Q.le_min_l.
Qed.

Lemma elem_of_option_list {A} (x : A) (o : option A) :
  x ∈ option_list o ↔ o = Some x.
Proof.
  destruct o as [y |]; simpl.
  - rewrite list_elem_of_singleton. split; congruence.
  - rewrite elem_of_nil. split; [tauto | congruence].
Qed.

Section Runs.

Variable trim : string -> string.
Variable new_Date : Json.value -> JS.Date.
Variable toISOString : Z -> string.
Variable codePoints : string -> list string.
Variable slice0 : nat -> string -> string.

Local Abbreviation react :=
  (react trim new_Date toISOString codePoints slice0).
Local Abbreviation run_all :=
  (run_all trim new_Date toISOString codePoints slice0).

(** The steps that are spelled with a [let] on a pair. *)
Ltac unfold_handlers :=
  unfold react, CodeEditorView.react, startBackgroundTask,
    handleApprovePlanAndExecute, handleAutonomousConductorDirect,
    handleGeneratePlan, resumeClick, click, run, poll,
    startBackgroundTask_done, handleApprovePlanAndExecute_done,
    handleAutonomousConductorDirect_done, planStart_done,
    handleGeneratePlan_done, cancelTask_done, resumeTask_done,
    deleteTask_done, toggleModel, toggleProvider, showProgress,
    mountRestore, instructionSent in *.

(** Only the input of the field changes [maxParallelWorkers]. *)
Lemma maxParallelWorkers_react h v :
  View.maxParallelWorkers (react h v).1 =
  match h with
  | ChangeMaxParallelWorkers value => JS.clamp 1 50 (Number value)
  | _ => View.maxParallelWorkers v
  end.
Proof.
  destruct h; unfold_handlers; simpl; try done;
    repeat case_match; simplify_eq; done.
Qed.

(** The two cells every such request reads are the ones of the state it
    is sent from. *)
Lemma sent_react h v r :
  r ∈ (react h v).2 →
  (∀ q, sentMaxParallelWorkers r = Some q → q = View.maxParallelWorkers v) ∧
  (∀ c ws,
     sentModels r = Some (c, ws) →
     c = View.conductorModel v ∧ ws = workerModels v).
Proof.
  destruct h; unfold_handlers; simpl;
    repeat case_match; simplify_eq; simpl;
    rewrite ?elem_of_nil, ?list_elem_of_singleton;
    try tauto; intros ->; simpl; split; intros; simplify_eq; done.
Qed.

Lemma conductor_not_worker v : View.conductorModel v ∉ workerModels v.
Proof.
  unfold workerModels. rewrite list_elem_of_filter. tauto.
Qed.

Lemma bounded_react h v : bounded v → bounded (react h v).1.
Proof.
  unfold bounded. rewrite maxParallelWorkers_react.
  destruct h; try done. intros _. by apply clamp_bounds.
Qed.

Lemma run_all_cons h hs v :
  run_all (h :: hs) v =
  ((run_all hs (react h v).1).1,
   (react h v).2 ++ (run_all hs (react h v).1).2).
Proof.
  simpl. destruct (react h v) as [v1 sent1]. simpl.
  by destruct (run_all hs v1).
Qed.

Lemma bounded_run_all hs v :
  bounded v →
  bounded (run_all hs v).1 ∧
  ∀ r q,
    r ∈ (run_all hs v).2 → sentMaxParallelWorkers r = Some q →
    (1 <= q <= 50)%Q.
Proof.
  revert v. induction hs as [| h hs IH]; intros v Hv.
  - split; [done |]. simpl. intros r q Hr. by apply elem_of_nil in Hr.
  - rewrite run_all_cons. simpl.
    destruct (IH _ (bounded_react h v Hv)) as [Hend Hsent].
    split; [done |]. intros r q [Hr | Hr]%elem_of_app Hq.
    + destruct (sent_react h v r Hr) as [Hmax _].
      by rewrite (Hmax q Hq).
    + by apply (Hsent r q).
Qed.

Lemma models_run_all hs v r c ws :
  r ∈ (run_all hs v).2 → sentModels r = Some (c, ws) → c ∉ ws.
Proof.
  revert v. induction hs as [| h hs IH]; intros v.
  - simpl. intros Hr. by apply elem_of_nil in Hr.
  - rewrite run_all_cons. simpl. intros [Hr | Hr]%elem_of_app Hm.
    + destruct (sent_react h v r Hr) as [_ Hmodels].
      destruct (Hmodels c ws Hm) as [-> ->]. apply conductor_not_worker.
    + by apply (IH _ Hr).
Qed.

(** C6.  The field starts at 10; whatever is typed into it, the value
    stored is [min(50, max(1, input))] and lies between 1 and 50; so in
    every run of the component from its mount the cell stays between 1
    and 50, and so does the [max_parallel_workers] of every plan and
    background request sent. *)
Theorem max_parallel_workers_bounded :
  (∀ restored savedTaskId storage,
     View.maxParallelWorkers (mounted restored savedTaskId storage) = 10%Q) ∧
  (∀ value v,
     let q := View.maxParallelWorkers (onChangeMaxParallelWorkers value v) in
     q = Qmin 50 (Qmax 1 (Number value)) ∧ (1 <= q <= 50)%Q) ∧
  (∀ hs restored savedTaskId storage,
     let run := run_all hs (mounted restored savedTaskId storage) in
     (1 <= View.maxParallelWorkers run.1 <= 50)%Q ∧
     ∀ r q,
       r ∈ run.2 → sentMaxParallelWorkers r = Some q → (1 <= q <= 50)%Q).
Proof.
  split_and!.
  - done.
  - intros value v q. subst q. split; [done |]. by apply clamp_bounds.
  - intros hs restored savedTaskId storage run. subst run.
    apply bounded_run_all. by split.
Qed.

(** C9.  The worker list of a request is the selection without the
    conductor: in the body of the plan request, in the body of each of
    the three background requests, and so in every request of every run
    of the component, the conductor model is not among the workers. *)
Theorem conductor_never_a_worker :
  (∀ feedback v,
     Api.plan_conductor_model_id (planBody trim codePoints feedback v) ∉
     Api.plan_worker_model_ids (planBody trim codePoints feedback v)) ∧
  (∀ approved_plan v,
     Api.conductor_model_id (backgroundBody trim approved_plan v) ∉
     Api.worker_model_ids (backgroundBody trim approved_plan v)) ∧
  (∀ hs v r c ws,
     r ∈ (run_all hs v).2 → sentModels r = Some (c, ws) → c ∉ ws).
Proof.
  split_and!.
  - intros feedback v. apply conductor_not_worker.
  - intros approved_plan v. apply conductor_not_worker.
  - apply models_run_all.
Qed.

End Runs.

Lemma max_parallel_workers_bounded_witness :
  (1 <=
     View.maxParallelWorkers
       (onChangeMaxParallelWorkers (Some 500%Q) Samples.view) <= 50)%Q ∧
  (1 <= 50 <= 50)%Q.
Proof.
  destruct (max_parallel_workers_bounded Samples.trim Samples.new_Date
              Samples.toISOString Samples.codePoints Samples.slice0)
    as (_ & Hinput & Hrun).
  split.
  - apply (Hinput (Some 500%Q) Samples.view).
  - destruct (Hrun [ SelectWorkspace "demo"; TypeTask "write a tool";
                     ToggleModel "w1"; SelectConductor "conductor";
                     ChangeMaxParallelWorkers (Some 500%Q);
                     AutonomousConductorDirect 0 ]
                Samples.done None ∅) as [_ Hsent].
    apply (Hsent
             (Api.PostBackground (Some "demo")
                {| Api.conductor_model_id := "conductor";
                   Api.worker_model_ids := ["w1"];
                   Api.task := "write a tool";
                   Api.max_iterations := 100;
                   Api.max_tokens := 4000;
                   Api.temperature := 7 # 10;
                   Api.max_parallel_workers := 50;
                   Api.approved_plan := Json.Undefined |})).
    + vm_compute. apply list_elem_of_here.
    + reflexivity.
Defined.

Lemma conductor_never_a_worker_witness :
  "conductor" ∉ ["w1"; "w2"].
Proof.
  destruct (conductor_never_a_worker Samples.trim Samples.new_Date
              Samples.toISOString Samples.codePoints Samples.slice0)
    as (_ & _ & Hrun).
  apply (Hrun [TypeFeedback "more"; ApprovePlanAndExecute 0] Samples.view
           (Api.PostBackground (Some "demo")
              (backgroundBody Samples.trim (Plan.to_js Samples.plan)
                 Samples.view))).
  - vm_compute. apply list_elem_of_here.
  - reflexivity.
Defined.

End RequestFacts.

(** ** Generating a plan *)

Module PlanFacts.
Import CodeEditorView.

Lemma append_empty_r (s : string) : s +:+ EmptyString = s.
Proof.
  induction s as [| a s IH]; [done |].
  change (String a (s +:+ EmptyString) = String a s). by rewrite IH.
Qed.

Lemma feedbackToSend_spec feedback v :
  let text := JS.or_string feedback (View.planFeedback v) in
  (text ≠ EmptyString → feedbackToSend feedback v = Some text) ∧
  (text = EmptyString → feedbackToSend feedback v = None).
Proof.
  intros text. unfold feedbackToSend, JS.or_undefined. fold text.
  unfold JS.truthy. destruct (String.eqb_spec text EmptyString); simpl;
    split; congruence.
Qed.

Lemma truthy_readable x : Json.truthy x = true → readable x = true.
Proof. by destruct x. Qed.

Section Plans.

Variable trim : string -> string.
Variable codePoints : string -> list string.

Local Abbreviation handleGeneratePlan := (handleGeneratePlan trim codePoints).
Local Abbreviation planBody := (planBody trim codePoints).
Local Abbreviation inputMissing := (inputMissing trim).
Local Abbreviation copyFile := (copyFile codePoints).
Local Abbreviation copyPhase := (copyPhase codePoints).
Local Abbreviation copyPlan := (copyPlan codePoints).

(** The copy of a file, of a phase and of a list of them, when they have
    the declared type. *)
Lemma copyFile_to_js file :
  copyFile (PlanFile.to_js file) = Some (PlanFile.to_js file).
Proof. done. Qed.

Lemma copyFiles_to_js files :
  mapM copyFile (PlanFile.to_js <$> files) = Some (PlanFile.to_js <$> files).
Proof.
  apply mapM_Some_2.
  induction files as [| file files IH]; csimpl; constructor; [| done].
  apply copyFile_to_js.
Qed.

Lemma copyPhase_to_js phase :
  copyPhase (PlanPhase.to_js phase) = Some (PlanPhase.to_js phase).
Proof.
  unfold CodeEditorView.copyPhase, PlanPhase.to_js. simpl.
  by rewrite copyFiles_to_js.
Qed.

Lemma copyPhases_to_js phases :
  mapM copyPhase (PlanPhase.to_js <$> phases) =
  Some (PlanPhase.to_js <$> phases).
Proof.
  apply mapM_Some_2.
  induction phases as [| phase phases IH]; csimpl; constructor; [| done].
  apply copyPhase_to_js.
Qed.

(** The copy reads seven properties of the plan held and nothing else:
    what reads as a plan of the declared type is copied to that plan. *)
Lemma copyPlan_reads plan held :
  Json.truthy held = true →
  (∀ k, k ∈ Plan.keys →
        Persist.member k held = Persist.member k (Plan.to_js plan)) →
  copyPlan held = Some (Plan.to_js plan).
Proof.
  intros Htruthy Hreads. unfold CodeEditorView.copyPlan.
  rewrite (truthy_readable held Htruthy).
  rewrite !Hreads by compute_done. simpl.
  by rewrite copyPhases_to_js.
Qed.

(** C7.  When the answer of the plan endpoint is no success with a plan,
    an error message is set, which contains the raw output if the answer
    carries one; the planning phase is [none] again; and the plan cell,
    emptied when the request was sent, stays empty. *)
Theorem plan_failure_reported :
  ∀ o v,
    planOf o = None →
    let v' := handleGeneratePlan_done o v in
    (∃ msg,
       View.planError v' = Some msg ∧
       (∀ data,
          o = Api.Ok data →
          msg = "計画の生成に失敗しました: " +:+
                JS.or_string (Api.raw_output data) "Unknown error") ∧
       ∀ data raw,
         o = Api.Ok data → Api.raw_output data = Some raw →
         ∃ pre post, msg = pre +:+ raw +:+ post) ∧
    View.planningPhase v' = PlanningPhase.none ∧
    View.generatedPlan v' = View.generatedPlan v ∧
    ∀ feedback v0,
      inputMissing v0 = false →
      View.generatedPlan
        (handleGeneratePlan_done o (handleGeneratePlan feedback v0).1) =
      Json.Null.
Proof.
  intros o v Hfail v'. subst v'.
  destruct o as [| status | data]; simpl in *.
  - split_and!; try done.
    + eexists. split_and!; [done | |]; intros; discriminate.
    + intros feedback v0 Hin.
      unfold CodeEditorView.handleGeneratePlan. by rewrite Hin.
  - split_and!; try done.
    + eexists. split_and!; [done | |]; intros; discriminate.
    + intros feedback v0 Hin.
      unfold CodeEditorView.handleGeneratePlan. by rewrite Hin.
  - rewrite Hfail. simpl. split_and!; try done.
    + eexists. split_and!; [done | by intros data' [= <-] |].
      intros data' raw [= <-] Hraw.
      rewrite Hraw. simpl. destruct (JS.truthy raw) eqn:Htruthy.
      * exists "計画の生成に失敗しました: ", EmptyString.
        by rewrite append_empty_r.
      * unfold JS.truthy in Htruthy.
        apply negb_false_iff, String.eqb_eq in Htruthy as ->.
        eexists _, EmptyString. by rewrite !append_empty_r.
    + intros feedback v0 Hin.
      unfold CodeEditorView.handleGeneratePlan. by rewrite Hin.
Qed.

(** C8, as amended.  The plan request carries the feedback text exactly
    when the feedback, given or typed, is not empty.  With feedback and a
    plan held it carries as previous plan the copy of that plan, and no
    previous plan when the copy throws; without feedback or without a
    plan it carries none.  The copy holds the seven properties of the
    declaration as they are read from the plan held, so it equals a plan
    of the declared type, and has an empty list of risks when the plan
    held has none.  A successful answer puts its plan in the place of the
    one held. *)
Theorem plan_feedback_request :
  (∀ feedback v,
     inputMissing v = false →
     (handleGeneratePlan feedback v).2 =
     Some (Api.PostPlan (View.selectedWorkspace v) (planBody feedback v))) ∧
  (∀ feedback v,
     let text := JS.or_string feedback (View.planFeedback v) in
     (text ≠ EmptyString →
      Api.feedback (planBody feedback v) = Some text ∧
      Api.previous_plan (planBody feedback v) =
        if Json.truthy (View.generatedPlan v)
        then copyPlan (View.generatedPlan v)
        else None) ∧
     (text = EmptyString →
      Api.feedback (planBody feedback v) = None ∧
      Api.previous_plan (planBody feedback v) = None)) ∧
  (∀ plan held,
     Json.truthy held = true →
     (∀ k, k ∈ Plan.keys →
           Persist.member k held = Persist.member k (Plan.to_js plan)) →
     copyPlan held = Some (Plan.to_js plan)) ∧
  (∀ held copy,
     copyPlan held = Some copy →
     Json.truthy (Persist.member "risks" held) = false →
     Persist.member "risks" copy = Json.Arr []) ∧
  (∀ data v,
     Api.plan_success data = true →
     Json.truthy (Api.plan data) = true →
     let v' := handleGeneratePlan_done (Api.Ok data) v in
     View.generatedPlan v' = Api.plan data ∧
     View.planningPhase v' = PlanningPhase.review).
Proof.
  split_and!.
  - intros feedback v Hin. unfold CodeEditorView.handleGeneratePlan.
    by rewrite Hin.
  - intros feedback v text.
    destruct (feedbackToSend_spec feedback v) as [Hsome Hnone].
    fold text in Hsome, Hnone. split; intros Htext; simpl.
    + unfold previousPlanCopy. rewrite (Hsome Htext). split; [done |].
      destruct (Json.truthy (View.generatedPlan v)); [| done].
      by destruct (copyPlan (View.generatedPlan v)).
    + by rewrite (Hnone Htext).
  - apply copyPlan_reads.
  - intros held copy Hcopy Hrisks. unfold CodeEditorView.copyPlan in Hcopy.
    rewrite Hrisks in Hcopy.
    destruct (readable held); [| done].
    destruct (mapItems _ _) as [phases |]; [| done].
    destruct (spreadItems _ _) as [final_structure |]; [| done].
    simpl in Hcopy. by injection Hcopy as <-.
  - intros data v Hsuccess Hplan v'. subst v'. simpl.
    unfold planReceived. by rewrite Hsuccess, Hplan.
Qed.

End Plans.

(** A plan held is not always sent back, nor always as it is.  The user
    of the sample view holds a plan that the review panel shows and that
    has no [final_structure]: its copy throws, and the feedback typed is
    sent without a previous plan.  And a plan held without [risks] is
    sent with an empty list of risks, which the plan held does not
    have. *)
Lemma feedback_without_previous_plan :
  Json.truthy (View.generatedPlan MoreSamples.partialView) = true ∧
  Api.feedback
    (planBody Samples.trim Samples.codePoints None MoreSamples.partialView) =
    Some "add tests" ∧
  Api.previous_plan
    (planBody Samples.trim Samples.codePoints None MoreSamples.partialView) =
    None ∧
  ∃ copy,
    Api.previous_plan
      (planBody Samples.trim Samples.codePoints None
         (View.setGeneratedPlan MoreSamples.riskless Samples.view)) =
      Some copy ∧
    copy ≠ MoreSamples.riskless.
Proof.
  split_and!; [reflexivity | reflexivity | reflexivity |].
  eexists. split; [reflexivity | discriminate].
Qed.

Lemma plan_failure_reported_witness :
  View.planError
    (handleGeneratePlan_done
       (Api.Ok {| Api.plan_success := false; Api.plan := Json.Undefined;
                  Api.raw_output := Some "not a plan" |})
       Samples.view) =
  Some "計画の生成に失敗しました: not a plan" ∧
  View.planningPhase
    (handleGeneratePlan_done
       (Api.Ok {| Api.plan_success := false; Api.plan := Json.Undefined;
                  Api.raw_output := Some "not a plan" |})
       Samples.view) = PlanningPhase.none.
Proof.
  split.
  - reflexivity.
  - apply (plan_failure_reported Samples.trim Samples.codePoints).
    reflexivity.
Defined.

Lemma plan_feedback_request_witness :
  Api.feedback (planBody Samples.trim Samples.codePoints None Samples.view) =
    Some "add tests" ∧
  Api.previous_plan
    (planBody Samples.trim Samples.codePoints None Samples.view) =
    Some (Plan.to_js Samples.plan).
Proof.
  destruct (plan_feedback_request Samples.trim Samples.codePoints)
    as (_ & Hbody & Hcopy & _).
  destruct (Hbody None Samples.view) as [Hsome _].
  destruct Hsome as [Hfeedback Hprevious]; [discriminate |].
  split; [done |]. rewrite Hprevious.
  apply (Hcopy Samples.plan (Plan.to_js Samples.plan)); [reflexivity | done].
Defined.

End PlanFacts.

(** ** Persisting the progress record *)

Module PersistFacts.
Import Json Persist.

Section RoundTrip.

Variable toISOString : Z -> string.
Variable new_Date : value -> JS.Date.

Local Abbreviation stringify := (stringify toISOString).
Local Abbreviation reparse := (reparse toISOString).

Lemma stringify_props_app (a b : list (string * value)) :
  stringify_props stringify (a ++ b) =
  stringify_props stringify a ++ stringify_props stringify b.
Proof.
  induction a as [| [k x] a IH]; simpl; [done |].
  destruct (stringify x); simpl; by rewrite IH.
Qed.

Lemma reparse_app (a b : list (string * value)) :
  reparse (a ++ b) = reparse a ++ reparse b.
Proof. unfold Persist.reparse. by rewrite stringify_props_app, map_app. Qed.

Lemma reparse_strings (l : list string) :
  map of_json (stringify_items stringify (Str <$> l)) = Str <$> l.
Proof. induction l as [| x l IH]; csimpl; [done | by rewrite IH]. Qed.

Lemma reparse_phases (l : list PhaseSummary) :
  map of_json (stringify_items stringify (phase_to_js <$> l)) =
  phase_to_js <$> l.
Proof. induction l as [| x l IH]; csimpl; [done | by rewrite IH]. Qed.

Lemma reparse_logs (l : list LogEntry.t) :
  map of_json (stringify_items stringify (log_to_js <$> l)) =
  parsedLog toISOString <$> l.
Proof. induction l as [| x l IH]; csimpl; [done | by rewrite IH]. Qed.

Lemma reparse_opt_Str k (o : option string) :
  reparse (opt_prop k (Str <$> o)) = opt_prop k (Str <$> o).
Proof. by destruct o. Qed.

Lemma reparse_opt_Num k (o : option Z) :
  reparse (opt_prop k (Num <$> o)) = opt_prop k (Num <$> o).
Proof. by destruct o. Qed.

Lemma reparse_opt_phases k (o : option (list PhaseSummary)) :
  reparse (opt_prop k ((fun l => Arr (phase_to_js <$> l)) <$> o)) =
  opt_prop k ((fun l => Arr (phase_to_js <$> l)) <$> o).
Proof.
  destruct o as [l |]; [| done].
  transitivity
    [(k, Arr (map of_json (stringify_items stringify (phase_to_js <$> l))))];
    [done |].
  by rewrite reparse_phases.
Qed.

(** What is set among the optional properties is read back as it was
    written. *)
Lemma reparse_optional p : reparse (optional_props p) = optional_props p.
Proof.
  unfold optional_props.
  by rewrite !reparse_app, !reparse_opt_Str, !reparse_opt_Num,
    reparse_opt_phases.
Qed.

(** The six required properties are read back with the log entries as
    parsed. *)
Lemma reparse_required p :
  reparse (required_props p) =
  [ ("iteration", Num (Progress.iteration p));
    ("progress", Num (Progress.progress p));
    ("analysis", Str (Progress.analysis p));
    ("filesCreated", Arr (Str <$> Progress.filesCreated p));
    ("isComplete", Bool (Progress.isComplete p));
    ("logs", Arr (parsedLog toISOString <$> Progress.logs p)) ].
Proof.
  transitivity
    [ ("iteration", Num (Progress.iteration p));
      ("progress", Num (Progress.progress p));
      ("analysis", Str (Progress.analysis p));
      ("filesCreated",
       Arr (map of_json
              (stringify_items stringify (Str <$> Progress.filesCreated p))));
      ("isComplete", Bool (Progress.isComplete p));
      ("logs",
       Arr (map of_json
              (stringify_items stringify (log_to_js <$> Progress.logs p)))) ];
    [done |].
  by rewrite reparse_strings, reparse_logs.
Qed.

Lemma parse_written p :
  Storage.parse (Storage.written (stringify (to_js p))) =
  Some (Obj (reparse (required_props p) ++ optional_props p)).
Proof.
  unfold to_js.
  change (Storage.parse (Storage.written (stringify (Obj ?props))))
    with (Some (Obj (reparse props))).
  by rewrite reparse_app, reparse_optional.
Qed.

Lemma mapM_reviveLog (l : list LogEntry.t) :
  mapM (reviveLog new_Date) (parsedLog toISOString <$> l) =
  Some (log_to_js <$> (revivedLog toISOString new_Date <$> l)).
Proof.
  apply mapM_Some_2.
  induction l as [| x l IH]; csimpl; constructor; [done | exact IH].
Qed.

Lemma tryRestore_written p :
  tryRestore new_Date (Storage.written (stringify (to_js p))) =
  Some (to_js (revived toISOString new_Date p)).
Proof.
  unfold tryRestore. rewrite parse_written, reparse_required. simpl.
  by rewrite mapM_reviveLog.
Qed.

(** C10.  When the record has a log entry or a positive iteration, the
    effect stores its serialisation under [autonomousProgress], and the
    initialiser of the next load returns the same record with every log
    timestamp replaced by the [Date] built from what was written for it;
    when the stored text is not JSON, the initialiser returns the initial
    record, which has iteration 0, progress 0, no log, no file and is
    not complete. *)
Theorem progress_roundtrip :
  (∀ p localStorage,
     Progress.logs p ≠ [] ∨ 0 < Progress.iteration p →
     persist toISOString p localStorage =
       <[ "autonomousProgress" :=
            Storage.written (stringify (to_js p)) ]> localStorage ∧
     restore new_Date true (persist toISOString p localStorage) =
       to_js (revived toISOString new_Date p)) ∧
  (∀ localStorage raw,
     localStorage !! "autonomousProgress" = Some (Storage.Malformed raw) →
     restore new_Date true localStorage = to_js Progress.initial) ∧
  (Progress.iteration Progress.initial = 0 ∧
   Progress.progress Progress.initial = 0 ∧
   Progress.logs Progress.initial = [] ∧
   Progress.filesCreated Progress.initial = [] ∧
   Progress.isComplete Progress.initial = false).
Proof.
  split_and!; try done.
  - intros p localStorage Hguard.
    assert (persist toISOString p localStorage =
            <[ key := Storage.written (stringify (to_js p)) ]> localStorage)
      as Hsaved.
    { unfold persist.
      destruct Hguard as [Hlogs | Hiter].
      - rewrite bool_decide_eq_true_2; [done |].
        destruct (Progress.logs p); [done | simpl; lia].
      - rewrite (bool_decide_eq_true_2 (0 < Progress.iteration p)) by done.
        by rewrite orb_true_r. }
    split; [exact Hsaved |].
    rewrite Hsaved. unfold restore. rewrite lookup_insert_eq.
    change (Storage.truthy (Storage.written (stringify (to_js p))))
      with true.
    cbv iota. by rewrite tryRestore_written.
  - intros localStorage raw Hraw. unfold restore. change key with
      "autonomousProgress". rewrite Hraw. simpl.
    by destruct (JS.truthy raw).
Qed.

End RoundTrip.

Lemma progress_roundtrip_witness :
  restore Samples.new_Date true
    (persist Samples.toISOString Samples.done ∅) =
  to_js Samples.done ∧
  restore Samples.new_Date true
    (<[ "autonomousProgress" := Storage.Malformed "{oops" ]> ∅) =
  to_js Progress.initial.
Proof.
  destruct (progress_roundtrip Samples.toISOString Samples.new_Date)
    as (Hsave & Hbad & _).
  split.
  - destruct (Hsave Samples.done ∅) as [_ ->].
    + left. discriminate.
    + reflexivity.
  - apply (Hbad _ "{oops"). apply lookup_insert_eq.
Defined.

End PersistFacts.

(** ** Reading a streamed response *)

Module FramesFacts.
Import Frames.

Lemma append_cons c s t : String c s +:+ t = String c (s +:+ t).
Proof. reflexivity. Qed.

Lemma append_nil_l t : EmptyString +:+ t = t.
Proof. reflexivity. Qed.

Lemma append_assoc s t u : (s +:+ t) +:+ u = s +:+ (t +:+ u).
Proof.
  induction s as [| c s IH]; [done |].
  by rewrite !append_cons, IH.
Qed.

Lemma append_nil_r (s : string) : s +:+ EmptyString = s.
Proof.
  induction s as [| a s IH]; [done |]. by rewrite append_cons, IH.
Qed.

Lemma split_nonempty s : split s ≠ [].
Proof.
  destruct s as [| c rest]; simpl; [done |].
  destruct (is_newline c); [destruct rest as [| c2 rest2]; [done |];
    destruct (is_newline c2); [done |] |];
    by destruct (split _).
Qed.

(** Without a line feed in front, the first code unit joins the first
    segment. *)
Lemma split_cons_other c rest :
  is_newline c = false → split (String c rest) = cons_head c (split rest).
Proof. intros Hc. simpl. by rewrite Hc. Qed.

Lemma split_cons_single c c2 rest2 :
  is_newline c2 = false →
  split (String c (String c2 rest2)) =
  cons_head c (split (String c2 rest2)).
Proof.
  intros Hc2. destruct (is_newline c) eqn:Hc.
  - change (split (String c (String c2 rest2)))
      with (if is_newline c then
              if is_newline c2 then EmptyString :: split rest2
              else cons_head c (split (String c2 rest2))
            else cons_head c (split (String c2 rest2))).
    by rewrite Hc, Hc2.
  - by apply split_cons_other.
Qed.

Lemma pop_cons_head c l :
  l ≠ [] →
  pop (cons_head c l) =
  match l with
  | [segment] => ([], String c segment)
  | _ => (cons_head c (removelast l), List.last l EmptyString)
  end.
Proof. destruct l as [| h [| h2 tl]]; done. Qed.

(** The step of [split_app] for a code unit that joins the first segment
    of what follows, whatever follows among [rest], [rest +:+ t] and the
    only segment of [rest] before [t]. *)
Lemma split_app_step c rest t :
  split (String c rest) = cons_head c (split rest) →
  split (String c (rest +:+ t)) = cons_head c (split (rest +:+ t)) →
  (∀ segment,
     split rest = [segment] →
     split (String c (segment +:+ t)) = cons_head c (split (segment +:+ t))) →
  split (rest +:+ t) =
    (pop (split rest)).1 ++ split ((pop (split rest)).2 +:+ t) →
  split (String c rest +:+ t) =
    (pop (split (String c rest))).1 ++
    split ((pop (split (String c rest))).2 +:+ t).
Proof.
  intros Hrest Happ Hone IH.
  rewrite append_cons, Happ, Hrest, IH.
  rewrite (pop_cons_head c _ (split_nonempty rest)).
  destruct (split rest) as [| h [| h2 tl]] eqn:Hsplit.
  - by destruct (split_nonempty rest).
  - change (cons_head c (split (h +:+ t)) = split (String c h +:+ t)).
    by rewrite append_cons, (Hone h eq_refl).
  - done.
Qed.

Lemma split_starts c rest :
  is_newline c = false →
  ∃ h tl, split (String c rest) = String c h :: tl.
Proof.
  intros Hc. rewrite (split_cons_other _ _ Hc).
  destruct (split rest) as [| h tl]; simpl; eauto.
Qed.

Lemma split_app_bounded n :
  ∀ s t,
    (String.length s ≤ n)%nat →
    split (s +:+ t) =
    (pop (split s)).1 ++ split ((pop (split s)).2 +:+ t).
Proof.
  induction n as [| n IH]; intros s t Hlen.
  - destruct s; [done | simpl in Hlen; lia].
  - destruct s as [| c rest]; [done |]. simpl in Hlen.
    destruct (is_newline c) eqn:Hc.
    + destruct rest as [| c2 rest2].
      * change (split (String c EmptyString))
          with (if is_newline c then [String c EmptyString]
                else cons_head c (split EmptyString)).
        by rewrite Hc.
      * destruct (is_newline c2) eqn:Hc2.
        -- rewrite !append_cons.
           change (split (String c (String c2 (rest2 +:+ t))))
             with (if is_newline c then
                     if is_newline c2 then EmptyString :: split (rest2 +:+ t)
                     else cons_head c (split (String c2 (rest2 +:+ t)))
                   else cons_head c (split (String c2 (rest2 +:+ t)))).
           change (split (String c (String c2 rest2)))
             with (if is_newline c then
                     if is_newline c2 then EmptyString :: split rest2
                     else cons_head c (split (String c2 rest2))
                   else cons_head c (split (String c2 rest2))).
           rewrite Hc, Hc2. simpl in Hlen.
           rewrite (IH rest2 t) by lia.
           pose proof (split_nonempty rest2) as Hne.
           by destruct (split rest2) as [| h [| h2 tl]].
        -- apply split_app_step.
           ++ by apply split_cons_single.
           ++ rewrite append_cons. by apply split_cons_single.
           ++ intros segment Hone.
              destruct (split_starts c2 rest2 Hc2) as (h & tl & Hstart).
              rewrite Hstart in Hone. injection Hone as <- ->.
              rewrite append_cons. by apply split_cons_single.
           ++ apply IH. lia.
    + apply split_app_step.
      * by apply split_cons_other.
      * by apply split_cons_other.
      * intros segment _. by apply split_cons_other.
      * apply IH. lia.
Qed.

Lemma split_app s t :
  split (s +:+ t) = (pop (split s)).1 ++ split ((pop (split s)).2 +:+ t).
Proof. by apply (split_app_bounded (String.length s)). Qed.

Lemma last_default_app (lines l : list string) d :
  l ≠ [] → List.last (lines ++ l) d = List.last l d.
Proof.
  intros Hl. induction lines as [| x lines IH]; [done |].
  simpl. rewrite IH. destruct (lines ++ l) eqn:Happ; [| done].
  by apply app_eq_nil in Happ as [_ ->].
Qed.

Lemma pop_app lines l :
  l ≠ [] → pop (lines ++ l) = (lines ++ (pop l).1, (pop l).2).
Proof.
  intros Hl. unfold pop. simpl.
  by rewrite removelast_app, last_default_app.
Qed.

Lemma pop_inv (l : list string) :
  l ≠ [] → (pop l).1 ++ [(pop l).2] = l.
Proof. intros Hl. symmetry. by apply app_removelast_last. Qed.

(** The buffer left by a turn has no blank line in it: it is its own
    only segment. *)
Lemma split_buffer s : split (pop (split s)).2 = [(pop (split s)).2].
Proof.
  pose proof (split_app s EmptyString) as Happ.
  rewrite !append_nil_r in Happ.
  rewrite <- (pop_inv (split s) (split_nonempty s)) in Happ at 1.
  by apply app_inv_head in Happ.
Qed.

Lemma read_pop chunks buffer :
  split buffer = [buffer] →
  read chunks buffer = pop (split (buffer +:+ received chunks)).
Proof.
  revert buffer. induction chunks as [| chunk rest IH]; intros buffer Hb.
  - simpl. by rewrite append_nil_r, Hb.
  - simpl. unfold feed. rewrite IH by apply split_buffer.
    rewrite <- append_assoc, (split_app (buffer +:+ chunk)).
    rewrite pop_app by apply split_nonempty.
    reflexivity.
Qed.




Lemma split_event event rest :
  no_newline event = true →
  split (event +:+ blank +:+ rest) = event :: split rest.
Proof.
  induction event as [| c event IH]; intros Hevent.
  - done.
  - simpl in Hevent. apply andb_true_iff in Hevent as [Hc Hevent].
    apply negb_true_iff in Hc.
    rewrite append_cons, (split_cons_other _ _ Hc), (IH Hevent). done.
Qed.

Lemma split_no_newline s : no_newline s = true → split s = [s].
Proof.
  induction s as [| c s IH]; intros Hs; [done |].
  simpl in Hs. apply andb_true_iff in Hs as [Hc Hs].
  apply negb_true_iff in Hc.
  by rewrite (split_cons_other _ _ Hc), (IH Hs).
Qed.

Lemma split_sse events tail :
  Forall (fun event => no_newline event = true) events →
  split (sse events +:+ tail) =
  (String.append "data: " <$> events) ++ split tail.
Proof.
  induction 1 as [| event events Hevent _ IH]; [done |].
  change (sse (event :: events))
    with ("data: " +:+ event +:+ blank +:+ sse events).
  rewrite !append_assoc.
  rewrite <- (append_assoc "data: " event).
  rewrite split_event by done. by rewrite IH.
Qed.

(** X1.  However the text of a response is cut into chunks, the loop
    handles the same lines and ends with the same buffer as if the whole
    text had come as one chunk. *)
Theorem stream_chunks_do_not_matter :
  ∀ chunks,
    read chunks EmptyString = feed EmptyString (received chunks).
Proof. intros chunks. by apply read_pop. Qed.


Lemma payload_data event : payload ("data: " +:+ event) = Some event.
Proof. reflexivity. Qed.

Section Handled.

Variable returns : string -> bool.

Local Abbreviation untilThrow := (untilThrow returns).
Local Abbreviation handle := (handle returns).
Local Abbreviation process := (process returns).

Lemma handle_app lines more :
  handle (lines ++ more) =
  if (handle lines).2
  then ((handle lines).1 ++ (handle more).1, (handle more).2)
  else handle lines.
Proof.
  induction lines as [| line lines IH]; simpl.
  - by destruct (Frames.handle returns more).
  - destruct (payload line) as [text |]; [| done].
    destruct (returns text); [| done].
    rewrite IH. destruct (Frames.handle returns lines) as [texts []]; simpl.
    + by destruct (Frames.handle returns more).
    + done.
Qed.

(** The loop hands over what the [for] loop would hand over if it ran
    once over all the lines cut, and ends with the buffer cut last
    unless an exception ended it. *)
Lemma process_read chunks buffer :
  process chunks buffer =
  ((handle (read chunks buffer).1).1,
   if (handle (read chunks buffer).1).2
   then Some (read chunks buffer).2
   else None).
Proof.
  revert buffer. induction chunks as [| chunk rest IH]; intros buffer.
  - done.
  - cbn [Frames.process Frames.read].
    destruct (feed buffer chunk) as [lines buffer1].
    rewrite IH. destruct (read rest buffer1) as [more final].
    cbn [fst snd]. rewrite handle_app.
    destruct (Frames.handle returns lines) as [texts []]; simpl; [| done].
    by destruct (Frames.handle returns more) as [texts' []].
Qed.

Lemma handle_data events :
  handle (String.append "data: " <$> events) =
  (untilThrow events, forallb returns events).
Proof.
  induction events as [| event events IH]; [done |].
  rewrite fmap_cons. cbn [Frames.handle Frames.untilThrow forallb].
  rewrite payload_data, IH. by destruct (returns event).
Qed.

Lemma untilThrow_all events :
  forallb returns events = true → untilThrow events = events.
Proof.
  induction events as [| event events IH]; [done |]. simpl.
  intros [Hevent Hrest]%andb_true_iff. by rewrite Hevent, IH.
Qed.

(** X3.  When the text received is a sequence of events, each on a
    [data: ] line closed by a blank line, followed by a tail that is not
    closed, then whatever the chunks, the texts handed to [JSON.parse]
    are the events in order up to the first one whose handling throws;
    when none throws they are all the events, and the loop ends with the
    tail in the buffer, which is not handled; when one throws, the events
    after it are never handed over. *)
Theorem sse_events_delivered :
  ∀ events tail chunks,
    Forall (fun event => no_newline event = true) events →
    no_newline tail = true →
    received chunks = sse events +:+ tail →
    process chunks EmptyString =
      (untilThrow events,
       if forallb returns events then Some tail else None) ∧
    (forallb returns events = true →
     process chunks EmptyString = (events, Some tail)) ∧
    (∀ before event after,
       events = before ++ event :: after →
       forallb returns before = true → returns event = false →
       process chunks EmptyString = (before ++ [event], None)).
Proof.
  intros events tail chunks Hevents Htail Hreceived.
  assert (process chunks EmptyString =
            (untilThrow events,
             if forallb returns events then Some tail else None)) as Hall.
  { rewrite process_read, read_pop by done.
    rewrite append_nil_l, Hreceived.
    rewrite split_sse by done. rewrite (split_no_newline tail Htail).
    rewrite pop_app by done. simpl. rewrite app_nil_r.
    by rewrite handle_data. }
  split_and!; [done | |].
  - intros Hreturn. by rewrite Hall, Hreturn, untilThrow_all.
  - intros before event after -> Hbefore Hevent. rewrite Hall.
    rewrite forallb_app. simpl. rewrite Hevent, andb_false_r. f_equal.
    clear Hevents Hreceived Hall.
    induction before as [| first before IH]; simpl.
    + by rewrite Hevent.
    + simpl in Hbefore. apply andb_true_iff in Hbefore as [Hfirst Hbefore].
      by rewrite Hfirst, IH.
Qed.

End Handled.

End FramesFacts.

Lemma sse_events_delivered_witness :
  Frames.process MoreSamples.returns MoreSamples.chunks EmptyString =
    ([MoreSamples.started; MoreSamples.created], Some "data: {}") ∧
  Frames.process MoreSamples.returns MoreSamples.brokenChunks EmptyString =
    ([MoreSamples.started; MoreSamples.cut], None).
Proof.
  split.
  - destruct (FramesFacts.sse_events_delivered MoreSamples.returns
                [MoreSamples.started; MoreSamples.created] "data: {}"
                MoreSamples.chunks) as (_ & Hall & _).
    + by repeat constructor.
    + reflexivity.
    + reflexivity.
    + by apply Hall.
  - destruct (FramesFacts.sse_events_delivered MoreSamples.returns
                [ MoreSamples.started; MoreSamples.cut;
                  MoreSamples.created; MoreSamples.completed ]
                EmptyString MoreSamples.brokenChunks) as (_ & _ & Hthrow).
    + by repeat constructor.
    + reflexivity.
    + reflexivity.
    + by apply (Hthrow [MoreSamples.started] MoreSamples.cut
                  [MoreSamples.created; MoreSamples.completed]).
Defined.

(** ** The log and the completion flag under stream events *)

Module StreamLogFacts.
Import Stream.

Lemma length_slice_last {A} n (l : list A) :
  length (JS.slice_last n l) = Nat.min (length l) n.
Proof. unfold JS.slice_last. rewrite length_drop. lia. Qed.

Lemma logs_addLog now type message prev :
  Progress.logs (addLog now type message prev) =
  JS.slice_last 50 (Progress.logs prev) ++
  [ {| LogEntry.type := type; LogEntry.message := message;
       LogEntry.timestamp := now |} ].
Proof. done. Qed.

Section Steps.

Variable slice0 : nat -> string -> string.

Local Abbreviation step := (step slice0).
Local Abbreviation processAutonomousStream :=
  (processAutonomousStream slice0).

Lemma length_logs_step now ev prev :
  (length (Progress.logs prev) ≤ 51 →
   length (Progress.logs (step now ev prev)) ≤ 51)%nat.
Proof.
  intros Hprev.
  destruct ev; simpl; rewrite ?length_app, ?length_slice_last; simpl;
    try lia.
Qed.

(** X4.  [addLog] keeps the last fifty entries before it appends: a log
    of at most 51 entries has at most 51 entries after any sequence of
    stream events. *)
Theorem stream_log_bounded :
  ∀ evs start,
    (length (Progress.logs start) ≤ 51)%nat →
    (length (Progress.logs (processAutonomousStream evs start)) ≤ 51)%nat.
Proof.
  unfold Stream.processAutonomousStream. intros evs.
  induction evs as [| [now ev] evs IH]; intros start Hstart; simpl.
  - done.
  - by apply IH, length_logs_step.
Qed.

Lemma isComplete_step now ev prev :
  Progress.isComplete prev = true →
  Progress.isComplete (step now ev prev) = true.
Proof. by destruct ev. Qed.

Lemma isComplete_stream evs start :
  Progress.isComplete start = true →
  Progress.isComplete (processAutonomousStream evs start) = true.
Proof.
  unfold Stream.processAutonomousStream. revert start.
  induction evs as [| [now ev] evs IH]; intros start Hstart; simpl.
  - done.
  - by apply IH, isComplete_step.
Qed.

(** X5.  No stream event clears the completion flag: once a
    [task_complete] event has been handled, the record is complete
    whatever events follow. *)
Theorem completion_never_undone :
  ∀ before after now reason start,
    Progress.isComplete
      (processAutonomousStream
         (before ++ (now, task_complete reason) :: after) start) = true.
Proof.
  intros before after now reason start.
  unfold Stream.processAutonomousStream. rewrite foldl_app. simpl.
  by apply isComplete_stream.
Qed.

End Steps.

Lemma stream_log_bounded_witness :
  (length
     (Progress.logs
        (processAutonomousStream Samples.slice0
           [ (JS.TimeValue 1, iteration_start 4);
             (JS.TimeValue 2, file_created "test.py" false) ]
           Samples.done)) ≤ 51)%nat.
Proof. apply stream_log_bounded. simpl. lia. Defined.

End StreamLogFacts.


(** ** Selecting models *)

Module SelectionFacts.
Import CodeEditorView.

Lemma filter_keeps_all (x : string) (l : list string) :
  x ∉ l → filter (fun id => id ≠ x) l = l.
Proof.
  induction l as [| y l IH]; intros Hx; [done |].
  apply not_elem_of_cons in Hx as [Hxy Hx].
  rewrite filter_cons_True by congruence. by rewrite IH.
Qed.

(** X6.  [toggleModel] flips the membership of its model and of no
    other; it keeps a selection free of duplicates so; and toggling
    twice a model that was not selected gives the selection back. *)
Theorem toggleModel_flips :
  ∀ modelId v,
    let old := View.selectedModels v in
    let new := View.selectedModels (toggleModel modelId v) in
    (modelId ∈ new ↔ modelId ∉ old) ∧
    (∀ other, other ≠ modelId → (other ∈ new ↔ other ∈ old)) ∧
    (NoDup old → NoDup new) ∧
    (modelId ∉ old →
     View.selectedModels (toggleModel modelId (toggleModel modelId v)) = old).
Proof.
  intros modelId v old new. subst old new. unfold toggleModel, JS.includes.
  case_bool_decide as Hin; simpl.
  - split_and!.
    + rewrite list_elem_of_filter. tauto.
    + intros other Hother. rewrite list_elem_of_filter. tauto.
    + apply NoDup_filter.
    + done.
  - split_and!.
    + rewrite elem_of_app, list_elem_of_singleton. tauto.
    + intros other Hother.
      rewrite elem_of_app, list_elem_of_singleton. tauto.
    + intros Hnd. apply NoDup_app. split_and!; [done | | apply NoDup_singleton].
      intros x Hx ->%list_elem_of_singleton. done.
    + intros _. rewrite bool_decide_eq_true_2
        by (rewrite elem_of_app, list_elem_of_singleton; tauto).
      simpl. rewrite filter_app, filter_cons_False, filter_nil, app_nil_r
        by tauto.
      by apply filter_keeps_all.
Qed.

(** X7.  The header of a provider deselects all its models when all are
    selected, and otherwise selects them all, leaving a selection without
    duplicates; models of other providers keep their state. *)
Theorem toggleProvider_all_or_none :
  ∀ providerModelIds v,
    let old := View.selectedModels v in
    let new := View.selectedModels (toggleProvider providerModelIds v) in
    (∀ other, other ∉ providerModelIds → (other ∈ new ↔ other ∈ old)) ∧
    ((∀ id, id ∈ providerModelIds → id ∈ old) →
     ∀ id, id ∈ providerModelIds → id ∉ new) ∧
    (¬ (∀ id, id ∈ providerModelIds → id ∈ old) →
     (∀ id, id ∈ providerModelIds → id ∈ new) ∧ NoDup new).
Proof.
  intros ids v old new. subst old new. unfold toggleProvider.
  destruct (forallb _ ids) eqn:Hall; simpl.
  - rewrite forallb_forall in Hall.
    split_and!.
    + intros other Hother. rewrite list_elem_of_filter. tauto.
    + intros _ id Hid. rewrite list_elem_of_filter. tauto.
    + intros Hnot. destruct Hnot. intros id Hid.
      apply list_elem_of_In in Hid. specialize (Hall id Hid).
      unfold JS.includes in Hall. by apply bool_decide_eq_true in Hall.
  - split_and!.
    + intros other Hother. rewrite JSFacts.elem_of_new_Set, elem_of_app.
      tauto.
    + intros Hsel.
      assert (forallb (λ id, JS.includes id (View.selectedModels v)) ids
              = true) as Htrue.
      { apply forallb_forall. intros id Hid. apply bool_decide_eq_true.
        apply Hsel. by apply list_elem_of_In. }
      congruence.
    + intros _. split; [| apply JSFacts.NoDup_new_Set].
      intros id Hid. rewrite JSFacts.elem_of_new_Set, elem_of_app. tauto.
Qed.

End SelectionFacts.

(** ** Polling a task *)

Module PollingFacts.
Import CodeEditorView.

Section Polls.
Variable new_Date : Json.value -> JS.Date.

Local Abbreviation pollLogs := (pollLogs new_Date).
Local Abbreviation poll := (poll new_Date).

(** X8.  A poll that fetched no log line keeps the log of the record;
    one that fetched lines replaces the log by them, in order, with the
    types and messages of the lines and the dates built from their
    timestamps, and changes nothing else in the record. *)
Theorem poll_replaces_log :
  ∀ logs prev,
    (logs = [] → pollLogs logs prev = prev) ∧
    (logs ≠ [] →
     let next := pollLogs logs prev in
     LogEntry.type <$> Progress.logs next = TaskLog.type <$> logs ∧
     LogEntry.message <$> Progress.logs next = TaskLog.message <$> logs ∧
     LogEntry.timestamp <$> Progress.logs next =
       (fun log => new_Date (Json.Str (TaskLog.timestamp log))) <$> logs ∧
     length (Progress.logs next) = length logs ∧
     next = Progress.set_logs (Progress.logs next) prev).
Proof.
  intros logs prev. split.
  - by intros ->.
  - intros Hlogs next. subst next. unfold CodeEditorView.pollLogs.
    rewrite bool_decide_eq_true_2 by (destruct logs; [done | simpl; lia]).
    simpl. rewrite <- !list_fmap_compose, length_fmap. done.
Qed.

(** X9.  A poll that finds the task completed, stopped, failed or
    cancelled stops the polling and the execution and sets the planning
    phase to [none]; one that finds it pending or running leaves them;
    in both cases the task stays the current task and the record is the
    polled one. *)
Theorem poll_stops_when_finished :
  ∀ task logs v,
    let v' := poll (Some task) logs v in
    (BackgroundTask.status task ∈
       [TaskStatus.completed; TaskStatus.stopped; TaskStatus.error;
        TaskStatus.cancelled] →
     View.pollingIntervalRef v' = None ∧
     View.isExecuting v' = false ∧
     View.planningPhase v' = PlanningPhase.none) ∧
    (BackgroundTask.status task ∈ [TaskStatus.pending; TaskStatus.running] →
     View.pollingIntervalRef v' = View.pollingIntervalRef v ∧
     View.isExecuting v' = View.isExecuting v ∧
     View.planningPhase v' = View.planningPhase v) ∧
    View.currentTaskId v' = View.currentTaskId v ∧
    View.autonomousProgress v' =
      pollLogs logs (pollStatus task (View.autonomousProgress v)).
Proof.
  intros task logs v v'. subst v'. unfold CodeEditorView.poll, finished.
  destruct (BackgroundTask.status task); simpl; split_and!; try done;
    intros Hin; exfalso; revert Hin; rewrite !elem_of_cons, elem_of_nil;
    intros Hor; repeat (destruct Hor as [Hor | Hor]; try discriminate); done.
Qed.

End Polls.

(** X10.  Zero counts of a polled task: a worker count or a parallel
    limit of 0 keeps the value held, an active-worker count of 0 is
    stored and only a missing one keeps the value held, and a current
    phase id of 0 is dropped while any other is stored. *)
Theorem poll_falsy_fields :
  ∀ task prev,
    let next := pollStatus task prev in
    (BackgroundTask.worker_count task = Some 0 →
     Progress.workerCount next = Progress.workerCount prev) ∧
    (BackgroundTask.max_parallel_workers task = Some 0 →
     Progress.maxParallelWorkers next = Progress.maxParallelWorkers prev) ∧
    (BackgroundTask.active_workers task = Some 0 →
     Progress.activeWorkers next = Some 0) ∧
    (BackgroundTask.active_workers task = None →
     Progress.activeWorkers next = Progress.activeWorkers prev) ∧
    (BackgroundTask.current_phase_id task = Some 0 →
     Progress.currentPhaseId next = None) ∧
    (∀ n, n ≠ 0 →
       BackgroundTask.current_phase_id task = Some n →
       Progress.currentPhaseId next = Some n).
Proof.
  intros task prev next. subst next. unfold pollStatus. simpl.
  split_and!; try (by intros ->).
  intros n Hn ->. unfold JS.num_or_undefined. simpl.
  by rewrite (proj2 (Z.eqb_neq n 0) Hn).
Qed.

End PollingFacts.


(** ** Starting a task *)

Module StartFacts.
Import CodeEditorView.

Section Starts.
Variable trim : string -> string.
Variable toISOString : Z -> string.

Local Abbreviation inputMissing := (inputMissing trim).
Local Abbreviation startBackgroundTask := (startBackgroundTask trim).
Local Abbreviation handleGeneratePlan := (handleGeneratePlan trim).
Local Abbreviation handleAutonomousConductorDirect :=
  (handleAutonomousConductorDirect trim toISOString).

Lemma truthy_spec s : JS.truthy s = true ↔ s ≠ EmptyString.
Proof.
  unfold JS.truthy. rewrite negb_true_iff.
  destruct (String.eqb_spec s EmptyString); split; congruence.
Qed.

Lemma inputMissing_false v :
  inputMissing v = false ↔
  (∃ name, View.selectedWorkspace v = Some name ∧ name ≠ EmptyString) ∧
  View.conductorModel v ≠ EmptyString ∧
  View.selectedModels v ≠ [] ∧
  trim (View.task v) ≠ EmptyString.
Proof.
  unfold CodeEditorView.inputMissing.
  rewrite !orb_false_iff, !negb_false_iff, !truthy_spec,
    bool_decide_eq_false.
  assert (JS.or_string (View.selectedWorkspace v) EmptyString ≠ EmptyString ↔
          ∃ name, View.selectedWorkspace v = Some name ∧ name ≠ EmptyString)
    as ->.
  { destruct (View.selectedWorkspace v) as [name |]; simpl.
    - destruct (JS.truthy name) eqn:Hname.
      + apply truthy_spec in Hname. naive_solver.
      + split; [done |]. intros (? & [= <-] & Hne).
        apply truthy_spec in Hne. congruence.
    - split; [done | by intros (? & ? & ?)]. }
  assert (length (View.selectedModels v) ≠ 0%nat ↔ View.selectedModels v ≠ [])
    as ->.
  { by destruct (View.selectedModels v). }
  tauto.
Qed.

(** X11.  The three handlers that start from the form send a request
    exactly when a workspace and a conductor are selected, at least one
    model is selected and the trimmed task is not empty; otherwise they
    send nothing and change nothing but the modal, which shows the
    warning. *)
Theorem start_needs_every_input :
  ∀ v,
    (inputMissing v = false ↔
     (∃ name, View.selectedWorkspace v = Some name ∧ name ≠ EmptyString) ∧
     View.conductorModel v ≠ EmptyString ∧
     View.selectedModels v ≠ [] ∧
     trim (View.task v) ≠ EmptyString) ∧
    (inputMissing v = false →
     ∀ codePoints feedback now,
       is_Some (startBackgroundTask v).2 ∧
       is_Some (handleGeneratePlan codePoints feedback v).2 ∧
       is_Some (handleAutonomousConductorDirect now v).2) ∧
    (inputMissing v = true →
     ∀ codePoints feedback now,
       startBackgroundTask v = (View.setModal inputWarning v, None) ∧
       handleGeneratePlan codePoints feedback v =
         (View.setModal inputWarning v, None) ∧
       handleAutonomousConductorDirect now v =
         (View.setModal inputWarning v, None)).
Proof.
  intros v. split_and!.
  - apply inputMissing_false.
  - intros Hok codePoints feedback now.
    unfold CodeEditorView.startBackgroundTask,
      CodeEditorView.handleGeneratePlan,
      CodeEditorView.handleAutonomousConductorDirect.
    rewrite Hok. simpl. eauto.
  - intros Hmissing codePoints feedback now.
    unfold CodeEditorView.startBackgroundTask,
      CodeEditorView.handleGeneratePlan,
      CodeEditorView.handleAutonomousConductorDirect.
    by rewrite Hmissing.
Qed.

(** X12.  The form accepts a selection that holds only the conductor:
    the worker list of a request is empty exactly when every selected
    model is the conductor, and the background request is then sent with
    no worker. *)
Theorem conductor_alone_sends_no_worker :
  ∀ v,
    inputMissing v = false →
    (workerModels v = [] ↔
     ∀ m, m ∈ View.selectedModels v → m = View.conductorModel v) ∧
    ((∀ m, m ∈ View.selectedModels v → m = View.conductorModel v) →
     (startBackgroundTask v).2 =
     Some (Api.PostBackground (View.selectedWorkspace v)
             (backgroundBody trim (View.generatedPlan v) v)) ∧
     Api.worker_model_ids (backgroundBody trim (View.generatedPlan v) v) = []).
Proof.
  intros v Hok.
  assert (workerModels v = [] ↔
          ∀ m, m ∈ View.selectedModels v → m = View.conductorModel v)
    as Hiff.
  { unfold workerModels. split.
    - intros Hnil m Hm.
      destruct (decide (m = View.conductorModel v)) as [| Hne]; [done |].
      assert (m ∈ filter (λ m, m ≠ View.conductorModel v)
                    (View.selectedModels v)) as Hin
        by (rewrite list_elem_of_filter; tauto).
      rewrite Hnil in Hin. by apply elem_of_nil in Hin.
    - intros Hall.
      induction (View.selectedModels v) as [| m l IH]; [done |].
      rewrite filter_cons_False.
      + apply IH. intros m' Hm'. apply Hall. by right.
      + intros Hne. apply Hne, Hall. by left. }
  split; [exact Hiff |]. intros Hall.
  unfold CodeEditorView.startBackgroundTask. rewrite Hok. simpl.
  split; [done |]. by apply Hiff.
Qed.

End Starts.

(** X13.  An ok answer without a task id: [startBackgroundTask] leaves
    the state as it is, still executing, while the two plan-driven starts
    report the failure in an error modal and stop executing. *)
Theorem start_answer_without_task :
  ∀ data v,
    startedTask data = None →
    startBackgroundTask_done (Api.Ok data) v = v ∧
    let v' := handleApprovePlanAndExecute_done (Api.Ok data) v in
    let v'' := handleAutonomousConductorDirect_done (Api.Ok data) v in
    View.isExecuting v' = false ∧
    View.planningPhase v' = PlanningPhase.none ∧
    Modal.show (View.modal v') = true ∧
    Modal.type (View.modal v') = Modal.error ∧
    View.isExecuting v'' = false ∧
    View.planningPhase v'' = PlanningPhase.none ∧
    Modal.show (View.modal v'') = true ∧
    Modal.type (View.modal v'') = Modal.error.
Proof.
  intros data v Hnone.
  unfold startBackgroundTask_done, handleApprovePlanAndExecute_done,
    handleAutonomousConductorDirect_done, planStart_done.
  by rewrite Hnone.
Qed.

Lemma conductor_alone_sends_no_worker_witness :
  Api.worker_model_ids
    (backgroundBody Samples.trim (Plan.to_js Samples.plan)
       MoreSamples.soloView) =
  [].
Proof.
  destruct (conductor_alone_sends_no_worker Samples.trim MoreSamples.soloView)
    as [_ Hsent].
  - reflexivity.
  - apply Hsent. intros m Hm. by apply list_elem_of_singleton in Hm.
Defined.

Lemma start_answer_without_task_witness :
  startBackgroundTask_done (Api.Ok MoreSamples.noTask) Samples.view =
    Samples.view ∧
  View.isExecuting
    (handleApprovePlanAndExecute_done (Api.Ok MoreSamples.noTask)
       Samples.view) = false.
Proof.
  destruct (start_answer_without_task MoreSamples.noTask Samples.view)
    as (Hsame & Hstop & _).
  - reflexivity.
  - by split.
Defined.

End StartFacts.

(** ** Deleting a task, and the modal *)

Module ControlFacts.
Import CodeEditorView.

(** X14.  The closure that [deleteTask] stores in the modal keeps the
    task id to delete and the current task id of the moment it was asked;
    confirming sends the request for that task.  An accepted deletion of
    the task that was current then clears the current task id and stops
    the polling, whatever task is current when the answer arrives; a
    deletion of a task that was not current then, or one the endpoint
    refuses, changes nothing; the progress record and the execution flag
    are kept in every case. *)
Theorem delete_clears_current_task :
  (∀ taskId v,
     Modal.onConfirm (View.modal (deleteTask taskId v)) =
       Some (Modal.DeleteTask taskId (View.currentTaskId v)) ∧
     ∀ v1,
       (click (Modal.onConfirm (View.modal (deleteTask taskId v))) v1).2 =
       [Api.DeleteTask taskId]) ∧
  (∀ currentTaskId taskId o v,
     let v' := deleteTask_done currentTaskId taskId o v in
     (currentTaskId = Some taskId →
      v' = match o with
           | Api.Ok _ => stopPolling (View.setCurrentTaskId None v)
           | _ => v
           end) ∧
     (currentTaskId ≠ Some taskId → v' = v) ∧
     View.autonomousProgress v' = View.autonomousProgress v ∧
     View.isExecuting v' = View.isExecuting v).
Proof.
  split.
  - done.
  - intros currentTaskId taskId o v v'. subst v'. unfold deleteTask_done.
    destruct o as [| status | []]; simpl; split_and!; try done;
      case_bool_decide; done.
Qed.

(** X15.  The modal shows no button when hidden, the single OK button
    when it is not a confirmation, and two or three buttons when it is,
    three exactly when a third label is given; a click on any button
    hides the modal, whatever its closure does. *)
Theorem modal_buttons_and_click :
  (∀ m,
     (Modal.show m = false → Modal.buttons m = []) ∧
     (Modal.show m = true → Modal.type m ≠ Modal.confirm →
      Modal.buttons m = [("OK", Modal.onConfirm m)]) ∧
     (Modal.show m = true → Modal.type m = Modal.confirm →
      (2 ≤ length (Modal.buttons m) ≤ 3)%nat ∧
      (length (Modal.buttons m) = 3%nat ↔
       ∃ txt, Modal.thirdText m = Some txt ∧ txt ≠ EmptyString))) ∧
  (∀ callback v,
     Modal.show (View.modal (click callback v).1) = false ∧
     Modal.buttons (View.modal (click callback v).1) = []).
Proof.
  split.
  - intros m. unfold Modal.buttons. split_and!.
    + by intros ->.
    + intros -> Htype. by destruct (Modal.type m).
    + intros -> ->. destruct (Modal.thirdText m) as [txt |]; simpl.
      * destruct (JS.truthy txt) eqn:Htxt; simpl.
        -- split; [lia |]. split; [| done]. intros _. exists txt.
           split; [done |]. by apply StartFacts.truthy_spec.
        -- split; [lia |]. split; [done |]. intros (? & [= <-] & Hne).
           apply StartFacts.truthy_spec in Hne. congruence.
      * split; [lia |]. split; [done |]. by intros (? & ? & ?).
  - intros callback v. unfold click.
    by destruct callback
      as [[taskId purgeFiles purgeLogs | | | taskId currentTaskId] |].
Qed.

End ControlFacts.


(** ** What is stored and what is restored *)

Module StorageFacts.
Import Json Persist.

Section Stored.
Variable toISOString : Z -> string.
Variable new_Date : value -> JS.Date.

(** X16.  The persistence effect writes no key but [autonomousProgress];
    it writes that key exactly when the progress panel has something to
    show (a log entry or a positive iteration), and otherwise leaves the
    store, with any record saved earlier, as it is. *)
Theorem persist_touches_one_key :
  ∀ p localStorage,
    (∀ k, k ≠ "autonomousProgress" →
          persist toISOString p localStorage !! k = localStorage !! k) ∧
    (Display.progressShown p = false →
     persist toISOString p localStorage = localStorage) ∧
    (Display.progressShown p = true →
     persist toISOString p localStorage !! "autonomousProgress" =
     Some (Storage.written (stringify toISOString (to_js p)))).
Proof.
  intros p localStorage. unfold persist, Display.progressShown.
  rewrite (orb_comm (bool_decide (0 < Progress.iteration p))).
  split_and!.
  - intros k Hk. case_match; [| done]. by rewrite lookup_insert_ne.
  - by intros ->.
  - intros ->. apply lookup_insert_eq.
Qed.

Lemma tryRestore_document doc :
  doc ≠ JNull →
  tryRestore new_Date (Storage.Document doc) =
  if truthy (member "logs" (of_json doc)) then
    match member "logs" (of_json doc) with
    | Arr items =>
        match mapM (reviveLog new_Date) items with
        | Some revived => Some (assign "logs" (Arr revived) (of_json doc))
        | None => None
        end
    | _ => None
    end
  else Some (of_json doc).
Proof. by destruct doc. Qed.


(** X17.  The initialiser returns the initial record when it does not
    run in a browser, when nothing is stored, when the stored document is
    [null], when its [logs] is truthy but no array, and when an entry of
    its [logs] is [null]. *)
Theorem restore_falls_back :
  ∀ localStorage,
    restore new_Date false localStorage = to_js Progress.initial ∧
    (localStorage !! "autonomousProgress" = None →
     restore new_Date true localStorage = to_js Progress.initial) ∧
    (localStorage !! "autonomousProgress" = Some (Storage.Document JNull) →
     restore new_Date true localStorage = to_js Progress.initial) ∧
    (∀ doc,
       localStorage !! "autonomousProgress" = Some (Storage.Document doc) →
       truthy (member "logs" (of_json doc)) = true →
       (∀ items, member "logs" (of_json doc) ≠ Arr items) →
       restore new_Date true localStorage = to_js Progress.initial) ∧
    (∀ doc items,
       localStorage !! "autonomousProgress" = Some (Storage.Document doc) →
       member "logs" (of_json doc) = Arr items →
       Null ∈ items →
       restore new_Date true localStorage = to_js Progress.initial).
Proof.
  intros localStorage. unfold restore. change key with "autonomousProgress".
  split_and!.
  - done.
  - by intros ->.
  - by intros ->.
  - intros doc -> Htruthy Harr.
    assert (doc ≠ JNull) as Hdoc by (by intros ->).
    cbn [Storage.truthy]. rewrite (tryRestore_document doc Hdoc), Htruthy.
    destruct (member "logs" (of_json doc)) as [| | | | | | items |];
      try done.
    by destruct (Harr items).
  - intros doc items -> Hlogs Hnull.
    assert (doc ≠ JNull) as Hdoc by (by intros ->).
    assert (mapM (reviveLog new_Date) items = None) as Hnone.
    { apply mapM_None. apply Exists_exists. by exists Null. }
    cbn [Storage.truthy]. rewrite (tryRestore_document doc Hdoc), Hlogs.
    cbn [truthy]. by rewrite Hnone.
Qed.


End Stored.

End StorageFacts.


(** ** Attaching to the stored task at mount *)

Module AttachFacts.
Import CodeEditorView.

(** X19.  The answer to the effect at mount, for the task id the first
    render had: a running task is polled under that id and the record is
    kept; a task in any other status replaces the record by its own
    iteration, progress, files and completion flag with an empty log,
    whatever log was restored, and neither polling nor execution
    starts. *)
Theorem mount_restores_finished_task :
  ∀ task taskId v,
    taskId ≠ EmptyString →
    let v' := mountRestore (Some taskId) (Some task) v in
    (BackgroundTask.status task = TaskStatus.running →
     View.pollingIntervalRef v' = Some taskId ∧
     View.isExecuting v' = true ∧
     View.planningPhase v' = PlanningPhase.executing ∧
     View.autonomousProgress v' = View.autonomousProgress v) ∧
    (BackgroundTask.status task ≠ TaskStatus.running →
     Progress.logs (View.autonomousProgress v') = [] ∧
     Progress.iteration (View.autonomousProgress v') =
       BackgroundTask.iteration task ∧
     Progress.progress (View.autonomousProgress v') =
       BackgroundTask.progress task ∧
     Progress.filesCreated (View.autonomousProgress v') =
       BackgroundTask.files_created task ∧
     Progress.isComplete (View.autonomousProgress v') =
       BackgroundTask.is_complete task ∧
     View.pollingIntervalRef v' = View.pollingIntervalRef v ∧
     View.isExecuting v' = View.isExecuting v ∧
     View.planningPhase v' = View.planningPhase v).
Proof.
  intros task taskId v Hid v'. subst v'. unfold mountRestore.
  rewrite (proj2 (StartFacts.truthy_spec taskId) Hid). simpl.
  case_bool_decide as Hrunning; split; intros Hstatus; try done.
Qed.

Lemma mount_restores_finished_task_witness :
  Progress.logs
    (View.autonomousProgress
       (mountRestore (View.currentTaskId Samples.view)
          (Some Samples.stoppedTask) Samples.view)) = [] ∧
  Progress.progress
    (View.autonomousProgress
       (mountRestore (View.currentTaskId Samples.view)
          (Some Samples.stoppedTask) Samples.view)) = 50.
Proof.
  destruct (mount_restores_finished_task Samples.stoppedTask "t1"
              Samples.view) as [_ Hother].
  - discriminate.
  - destruct Hother as (Hlogs & _ & Hprogress & _); [discriminate |].
    by split.
Defined.

End AttachFacts.


(** ** File sizes *)

Module DisplayFacts.
Import Display.

Lemma tenths_near num den :
  0 < den →
  - den < 2 * (den * tenths num den - 10 * num) ≤ den.
Proof.
  intros Hden. unfold tenths.
  pose proof (Z.div_mod (20 * num + den) (2 * den) ltac:(lia)) as Hdiv.
  pose proof (Z.mod_pos_bound (20 * num + den) (2 * den) ltac:(lia)) as Hmod.
  lia.
Qed.

Lemma tenths_mono num1 num2 den :
  0 < den → num1 ≤ num2 → tenths num1 den ≤ tenths num2 den.
Proof.
  intros Hden Hle. unfold tenths. apply Z.div_le_mono; lia.
Qed.

(** X20.  [formatFileSize] shows a size below 1024 in bytes as it is; a
    size below 1024 * 1024 in KB and a larger one in MB with one decimal,
    the number of tenths shown being within half a tenth of the size; the
    KB figure ranges from 1.0 to 1024.0. *)
Theorem formatFileSize_rounds :
  ∀ bytes,
    (bytes < 1024 → formatFileSize bytes = pretty bytes +:+ " B") ∧
    (1024 ≤ bytes < 1024 * 1024 →
     ∃ n,
       formatFileSize bytes =
         (pretty (n / 10) +:+ "." +:+ pretty (n mod 10)) +:+ " KB" ∧
       10 ≤ n ≤ 10240 ∧
       - 1024 < 2 * (1024 * n - 10 * bytes) ≤ 1024) ∧
    (1024 * 1024 ≤ bytes →
     ∃ n,
       formatFileSize bytes =
         (pretty (n / 10) +:+ "." +:+ pretty (n mod 10)) +:+ " MB" ∧
       10 ≤ n ∧
       - (1024 * 1024) < 2 * (1024 * 1024 * n - 10 * bytes) ≤ 1024 * 1024).
Proof.
  intros bytes. unfold formatFileSize. split_and!.
  - intros Hlt. by rewrite (proj2 (Z.ltb_lt _ _) Hlt).
  - intros [Hlo Hhi].
    rewrite (proj2 (Z.ltb_ge _ _) Hlo), (proj2 (Z.ltb_lt _ _) Hhi).
    exists (tenths bytes 1024). split; [done |].
    pose proof (tenths_near bytes 1024 ltac:(lia)). lia.
  - intros Hlo.
    rewrite (proj2 (Z.ltb_ge bytes 1024) ltac:(lia)),
      (proj2 (Z.ltb_ge _ _) Hlo).
    exists (tenths bytes (1024 * 1024)). split; [done |].
    pose proof (tenths_near bytes (1024 * 1024) ltac:(lia)). lia.
Qed.

End DisplayFacts.


(** ** What holds in every run of the component *)

Module RunFacts.
Import CodeEditorView.

Section Runs.
Variable trim : string -> string.
Variable new_Date : Json.value -> JS.Date.
Variable toISOString : Z -> string.
Variable codePoints : string -> list string.
Variable slice0 : nat -> string -> string.

Local Abbreviation react :=
  (react trim new_Date toISOString codePoints slice0).
Local Abbreviation run_all :=
  (run_all trim new_Date toISOString codePoints slice0).

Ltac unfold_all :=
  unfold react, CodeEditorView.react, startBackgroundTask,
    handleApprovePlanAndExecute, handleAutonomousConductorDirect,
    handleGeneratePlan, resumeClick, click, run, poll,
    startBackgroundTask_done, handleApprovePlanAndExecute_done,
    handleAutonomousConductorDirect_done, planStart_done,
    handleGeneratePlan_done, cancelTask_done, resumeTask_done,
    deleteTask_done, toggleModel, toggleProvider, showProgress,
    mountRestore, instructionSent, discardPlan, clearHistory,
    startFailed, startPolling, stopPolling in *.

Lemma planMatchesPhase_react h v :
  Invariant.planMatchesPhase v → Invariant.planMatchesPhase (react h v).1.
Proof.
  unfold Invariant.planMatchesPhase. intros [Hreview Hgen].
  destruct h; unfold_all; unfold planReceived in *; simpl; try done;
    repeat case_match; simpl; try done; try (simplify_eq; simpl; done).
  match goal with H : Some _ = Some _ |- _ => injection H as <- end.
  match goal with
  | H : _ && _ = true |- _ => apply andb_true_iff in H as [_ ->]
  end.
  by split.
Qed.

(** Every happening but the answer to the effect at mount keeps the
    interval on the current task. *)
Lemma pollsCurrentTask_react h v :
  Invariant.mountAnswer h = false →
  Invariant.pollsCurrentTask v → Invariant.pollsCurrentTask (react h v).1.
Proof.
  unfold Invariant.pollsCurrentTask. intros Hh Hv.
  destruct h; try discriminate Hh; unfold_all; simpl; try done;
    repeat case_match; simplify_eq; simpl; try done;
    intros; simplify_eq; eauto; naive_solver.
Qed.

(** The answer to the effect at mount keeps it when the current task is
    still the one the effect asked for. *)
Lemma pollsCurrentTask_mountRestore currentTaskId task v :
  View.currentTaskId v = currentTaskId →
  Invariant.pollsCurrentTask v →
  Invariant.pollsCurrentTask (mountRestore currentTaskId task v).
Proof.
  unfold Invariant.pollsCurrentTask, mountRestore. intros Hcurrent Hv.
  destruct currentTaskId as [saved |]; [| done].
  repeat case_match; simpl; try done.
  by intros taskId [= <-].
Qed.

Lemma invariant_run_all (P : View.t → Prop) :
  (∀ h v, P v → P (react h v).1) →
  ∀ hs v, P v → P (run_all hs v).1.
Proof.
  intros Hstep hs. induction hs as [| h hs IH]; intros v Hv; [done |].
  rewrite RequestFacts.run_all_cons. simpl. by apply IH, Hstep.
Qed.

Lemma run_all_app hs1 hs2 v :
  (run_all (hs1 ++ hs2) v).1 = (run_all hs2 (run_all hs1 v).1).1.
Proof.
  revert v. induction hs1 as [| h hs1 IH]; intros v; [done |].
  rewrite <- app_comm_cons, !RequestFacts.run_all_cons. simpl. apply IH.
Qed.

Lemma pollsCurrentTask_run_all hs v :
  Forall (fun h => Invariant.mountAnswer h = false) hs →
  Invariant.pollsCurrentTask v →
  Invariant.pollsCurrentTask (run_all hs v).1.
Proof.
  intros Hhs. revert v.
  induction Hhs as [| h hs Hh _ IH]; intros v Hv; [done |].
  rewrite RequestFacts.run_all_cons. simpl.
  by apply IH, pollsCurrentTask_react.
Qed.

(** X21.  In every run of the component from its mount, the planning
    phase [review] comes with a plan and the phase [generating] with
    none. *)
Theorem review_always_has_plan :
  ∀ hs restored savedTaskId storage,
    let v := (run_all hs (mounted restored savedTaskId storage)).1 in
    (View.planningPhase v = PlanningPhase.review →
     Json.truthy (View.generatedPlan v) = true) ∧
    (View.planningPhase v = PlanningPhase.generating →
     View.generatedPlan v = Json.Null).
Proof.
  intros hs restored savedTaskId storage v. subst v.
  apply (invariant_run_all Invariant.planMatchesPhase).
  - apply planMatchesPhase_react.
  - by split.
Qed.

(** X22.  In a run of the component from its mount, the task the
    interval polls is the current task as long as the answer to the
    effect at mount has not come, and also after it when it came while
    the current task was still the saved one.  An answer that comes
    later breaks this: after a cancellation of the saved task, accepted
    before the answer for it arrives, the interval polls the saved task
    and no task is current. *)
Theorem polls_current_task_unless_mount_answer_late :
  (∀ hs restored savedTaskId storage taskId,
     Forall (fun h => Invariant.mountAnswer h = false) hs →
     let v := (run_all hs (mounted restored savedTaskId storage)).1 in
     View.pollingIntervalRef v = Some taskId →
     View.currentTaskId v = Some taskId) ∧
  (∀ before after task restored savedTaskId storage taskId,
     Forall (fun h => Invariant.mountAnswer h = false) before →
     Forall (fun h => Invariant.mountAnswer h = false) after →
     View.currentTaskId
       (run_all before (mounted restored savedTaskId storage)).1 =
       savedTaskId →
     let v :=
       (run_all (before ++ MountRestore savedTaskId task :: after)
          (mounted restored savedTaskId storage)).1 in
     View.pollingIntervalRef v = Some taskId →
     View.currentTaskId v = Some taskId) ∧
  (∀ task restored savedTaskId storage,
     savedTaskId ≠ EmptyString →
     BackgroundTask.status task = TaskStatus.running →
     let v :=
       (run_all
          [ CancelTaskDone None (Api.Ok {| Api.purged_files := None |});
            MountRestore (Some savedTaskId) (Some task) ]
          (mounted restored (Some savedTaskId) storage)).1 in
     View.pollingIntervalRef v = Some savedTaskId ∧
     View.currentTaskId v = None).
Proof.
  split_and!.
  - intros hs restored savedTaskId storage taskId Hhs v. subst v.
    revert taskId. apply pollsCurrentTask_run_all; [done |].
    by intros taskId.
  - intros before after task restored savedTaskId storage taskId
      Hbefore Hafter Hcurrent v. subst v.
    revert taskId. rewrite run_all_app, RequestFacts.run_all_cons.
    apply pollsCurrentTask_run_all; [done |]. simpl.
    apply pollsCurrentTask_mountRestore; [done |].
    apply pollsCurrentTask_run_all; [done |]. by intros taskId.
  - intros task restored savedTaskId storage Hid Hrunning v. subst v.
    simpl. unfold mountRestore.
    rewrite (proj2 (StartFacts.truthy_spec savedTaskId) Hid), Hrunning.
    done.
Qed.

End Runs.

Lemma polls_current_task_unless_mount_answer_late_witness :
  View.currentTaskId
    (run_all Samples.trim Samples.new_Date Samples.toISOString
       Samples.codePoints Samples.slice0
       [ SelectWorkspace "demo"; TypeTask "write a tool";
         ToggleModel "w1"; SelectConductor "conductor";
         AutonomousConductorDirect 0;
         AutonomousConductorDirectDone (Api.Ok MoreSamples.accepted) ]
       (mounted Samples.done None ∅)).1 = Some "t9" ∧
  View.pollingIntervalRef
    (run_all Samples.trim Samples.new_Date Samples.toISOString
       Samples.codePoints Samples.slice0
       [ CancelTaskDone None (Api.Ok {| Api.purged_files := None |});
         MountRestore (Some "t1") (Some Samples.behind) ]
       (mounted Samples.done (Some "t1") ∅)).1 = Some "t1".
Proof.
  destruct (polls_current_task_unless_mount_answer_late Samples.trim
              Samples.new_Date Samples.toISOString Samples.codePoints
              Samples.slice0)
    as (Hearly & _ & Hlate).
  split.
  - apply (Hearly
             [ SelectWorkspace "demo"; TypeTask "write a tool";
               ToggleModel "w1"; SelectConductor "conductor";
               AutonomousConductorDirect 0;
               AutonomousConductorDirectDone (Api.Ok MoreSamples.accepted) ]
             Samples.done None ∅ "t9").
    + by repeat constructor.
    + reflexivity.
  - destruct (Hlate Samples.behind Samples.done "t1" ∅) as [Hpolled _].
    + discriminate.
    + reflexivity.
    + exact Hpolled.
Defined.

End RunFacts.
